(** * QuickHire: the generation-request handler of [script.js]

    A shallow embedding of the [submit] handler of [#careerForm]
    (script.js, lines 53-167) together with the helpers it calls
    ([showToast], [downloadBlob]) and the JavaScript primitives it relies
    on ([String.prototype.trim], [parseInt], number-to-string conversion,
    [localStorage], [fetch]).

    Conventions of the model.
    - A JavaScript string is the [string] of its UTF-8 bytes.
    - A JavaScript number that holds an integer is [Num n] with [n : Z];
      the only other number the handler can meet is [NaN].  Parsing,
      subtracting one and printing are done on integers, which is what
      JavaScript does for magnitudes up to [2^53] ([max_exact]); statements
      about the value of a balance are made within that range.
    - [localStorage] is a finite map from keys to strings; [getItem] and
      [setItem] do not throw.
    - [await] is a call: one orchestration runs from the submit event to
      its end, and the answer of the network to a request is given by a
      function of the request.
    - Every observable effect (storage access, network request, download,
      toast, status announcement, console output) is appended to a trace,
      in program order.  Timers ([setTimeout]) only hide the toast and the
      progress bar later on and are not part of the model; neither is the
      second [submit] listener (lines 249-262), which animates the
      progress bar on a timer of its own.  That listener is modelled
      apart, further down, with the other parts of the page:
      [updatePlanUI], the tabs, the skill tags and the document types.
    - The page always has the form's submit button, and every skill tag
      has its label node: the handler dereferences both unguarded
      (lines 68 and 88).  Every other element is optional, as in the
      code. *)

From Stdlib Require Import ZArith String Ascii List Lia Decimal DecimalString DecimalZ DecimalPos.
From stdpp Require Import base option gmap strings.
Import ListNotations.

Local Open Scope string_scope.
Local Open Scope Z_scope.

(** ** JavaScript strings *)

Module JsString.

Definition code (c : ascii) : N := N_of_ascii c.

(** One-byte white space and line terminators: TAB, LF, VT, FF, CR, SP. *)
Definition ws1 (c : ascii) : bool :=
  let n := code c in
  ((9 <=? n) && (n <=? 13))%N || (n =? 32)%N.

(** U+00A0, encoded on two bytes. *)
Definition ws2 (c1 c2 : ascii) : bool :=
  ((code c1 =? 194) && (code c2 =? 160))%N.

(** U+1680, U+2000..U+200A, U+2028, U+2029, U+202F, U+205F, U+3000 and
    U+FEFF, encoded on three bytes. *)
Definition ws3 (c1 c2 c3 : ascii) : bool :=
  let '(a, b, c) := (code c1, code c2, code c3) in
  (((a =? 225) && (b =? 154) && (c =? 128))
   || ((a =? 226) && (b =? 128)
       && (((128 <=? c) && (c <=? 138)) || (c =? 168) || (c =? 169) || (c =? 175)))
   || ((a =? 226) && (b =? 129) && (c =? 159))
   || ((a =? 227) && (b =? 128) && (c =? 128))
   || ((a =? 239) && (b =? 187) && (c =? 191)))%N.

(** [trimStart]: drop white space at the front. *)
Fixpoint trimStart (s : string) : string :=
  match s with
  | EmptyString => s
  | String c1 s1 =>
      if ws1 c1 then trimStart s1
      else match s1 with
           | EmptyString => s
           | String c2 s2 =>
               if ws2 c1 c2 then trimStart s2
               else match s2 with
                    | EmptyString => s
                    | String c3 s3 => if ws3 c1 c2 c3 then trimStart s3 else s
                    end
           end
  end.

Definition blank (s : string) : bool :=
  match trimStart s with EmptyString => true | _ => false end.

(** [trimEnd]: drop white space at the back. *)
Fixpoint trimEnd (s : string) : string :=
  match s with
  | EmptyString => EmptyString
  | String c s' => if blank s then EmptyString else String c (trimEnd s')
  end.

(** [String.prototype.trim]. *)
Definition trim (s : string) : string := trimEnd (trimStart s).

(** [a || b] on strings: the empty string is falsy. *)
Definition or_else (a b : string) : string :=
  match a with EmptyString => b | _ => a end.

(** [a || b] where [a] may be [null] or [undefined]. *)
Definition opt_or (a : option string) (b : string) : string :=
  match a with Some s => or_else s b | None => b end.

Definition truthy (s : string) : bool :=
  match s with EmptyString => false | _ => true end.

Fixpoint prefixb (p s : string) : bool :=
  match p, s with
  | EmptyString, _ => true
  | String a p', String b s' => Ascii.eqb a b && prefixb p' s'
  | String _ _, EmptyString => false
  end.

(** [s.includes(p)]. *)
Fixpoint includes (p s : string) : bool :=
  prefixb p s ||
  match s with
  | EmptyString => false
  | String _ s' => includes p s'
  end.

End JsString.

(** ** JavaScript numbers, [parseInt] and number-to-string *)

Module JsNumber.

Inductive jsnum : Type :=
| NaN
| Num (n : Z).

Definition digit_of (c : ascii) : option (uint -> uint) :=
  if Ascii.eqb c "0" then Some D0 else
  if Ascii.eqb c "1" then Some D1 else
  if Ascii.eqb c "2" then Some D2 else
  if Ascii.eqb c "3" then Some D3 else
  if Ascii.eqb c "4" then Some D4 else
  if Ascii.eqb c "5" then Some D5 else
  if Ascii.eqb c "6" then Some D6 else
  if Ascii.eqb c "7" then Some D7 else
  if Ascii.eqb c "8" then Some D8 else
  if Ascii.eqb c "9" then Some D9 else None.

(** The longest prefix of decimal digits. *)
Fixpoint digits (s : string) : uint :=
  match s with
  | EmptyString => Nil
  | String c s' =>
      match digit_of c with
      | Some d => d (digits s')
      | None => Nil
      end
  end.

Definition unsigned (s : string) : jsnum :=
  match digits s with
  | Nil => NaN
  | d => Num (Z.of_uint d)
  end.

Definition negate (x : jsnum) : jsnum :=
  match x with NaN => NaN | Num n => Num (- n) end.

(** [parseInt(s, 10)]: skip leading white space, read an optional sign,
    then the longest run of digits; anything after it is ignored, and
    no digit at all gives [NaN]. *)
Definition parseInt (s : string) : jsnum :=
  match JsString.trimStart s with
  | String c rest =>
      if Ascii.eqb c "-" then negate (unsigned rest)
      else if Ascii.eqb c "+" then unsigned rest
      else unsigned (String c rest)
  | EmptyString => NaN
  end.

(** [String(x)] for the numbers of the model. *)
Definition to_string (x : jsnum) : string :=
  match x with
  | NaN => "NaN"
  | Num n => NilZero.string_of_int (Z.to_int n)
  end.

(** The largest magnitude up to which every integer is a JavaScript
    number: [2^53]. *)
Definition max_exact : Z := 9007199254740992.

(** [x - 1]. *)
Definition decrement (x : jsnum) : jsnum :=
  match x with NaN => NaN | Num n => Num (n - 1) end.

(** [x <= 0]: every comparison with [NaN] is false. *)
Definition le0 (x : jsnum) : bool :=
  match x with NaN => false | Num n => n <=? 0 end.

(** [x > 0]. *)
Definition gt0 (x : jsnum) : bool :=
  match x with NaN => false | Num n => 0 <? n end.

End JsNumber.

Import JsString JsNumber.

(** ** Data of one submission *)

Definition Blob : Type := string.

(** A thrown value: an [Error] with its [name] and [message]. *)
Record JsError : Type := mkError { err_name : string; err_message : string }.

(** What [response.blob()] gives. *)
Inductive BodyRead : Type :=
| BlobOk (b : Blob)
| BlobFail (e : JsError).

(** A [Response]: its [ok] flag (status in 200-299) and its body. *)
Record Response : Type := mkResponse { ok : bool; body : BodyRead }.

(** What [fetch] gives: a rejection (transport error) or a response. *)
Inductive FetchResult : Type :=
| NetFail (e : JsError)
| Resolved (r : Response).

(** The object [formData] (lines 84-96). *)
Record SubmissionRecord : Type := mkRecord {
  current_position : string;
  years_experience : string;
  education : string;
  skills : list string;
  experience : string;
  target_position : string;
  achievements : string;
  projects : string;
  industry : string;
  tone : string;
  job_description : string
}.

(** A [fetch] call; [req_body] is the object that [JSON.stringify]
    serialises. *)
Record Request : Type := mkRequest {
  req_url : string;
  req_method : string;
  req_content_type : string;
  req_body : SubmissionRecord
}.

Inductive Event : Type :=
| EvPreventDefault
| EvGetItem (key : string)
| EvSetItem (key value : string)
| EvFetch (r : Request)
| EvDownload (b : Blob) (filename : string)
| EvToast (message type : string)
| EvStatus (text : string)
| EvConsoleError (e : JsError).

(** ** The page *)

Record Button : Type := mkButton { disabled : bool; innerHTML : string }.

Record Toast : Type := mkToast { toast_text : string; toast_background : string }.

Record Dom : Type := mkDom {
  controls : gmap string string;       (* id of a control |-> its value *)
  skill_tags : list string;            (* labels of #skills-tags .skill-tag *)
  qh_status : option string;           (* #qh-status, its textContent *)
  submit_btn : Button;                 (* button[type=submit] of the form *)
  qh_toast : option Toast;             (* #qh-toast *)
  progress_container : option string;  (* its style.display *)
  progress_fill : option string;       (* its style.width *)
  progress_text : option string;       (* its textContent *)
  credit_count : option string         (* #credit-count, its textContent *)
}.

Record State : Type := mkState {
  dom : Dom;
  localStorage : gmap string string
}.

Definition Network : Type := Request -> FetchResult.

(** ** Computations with state, exceptions and a trace *)

Inductive Res (A : Type) : Type :=
| Val (a : A)
| Exc (e : JsError).
Arguments Val {A} a.
Arguments Exc {A} e.

Definition M (A : Type) : Type := State -> Res A * State * list Event.

Definition ret {A} (a : A) : M A := fun s => (Val a, s, []).

Definition bind {A B} (m : M A) (k : A -> M B) : M B :=
  fun s =>
    match m s with
    | (Val a, s1, t1) => let '(r, s2, t2) := k a s1 in (r, s2, (t1 ++ t2)%list)
    | (Exc e, s1, t1) => (Exc e, s1, t1)
    end.

Definition throw {A} (e : JsError) : M A := fun s => (Exc e, s, []).

(** [try { body } catch (error) { handler }]. *)
Definition try_catch {A} (body : M A) (handler : JsError -> M A) : M A :=
  fun s =>
    match body s with
    | (Val a, s1, t1) => (Val a, s1, t1)
    | (Exc e, s1, t1) => let '(r, s2, t2) := handler e s1 in (r, s2, (t1 ++ t2)%list)
    end.

(** [... finally { fin }]: [fin] always runs; its own exception wins. *)
Definition finally {A} (m : M A) (fin : M unit) : M A :=
  fun s =>
    let '(r, s1, t1) := m s in
    let '(rf, s2, t2) := fin s1 in
    (match rf with Val _ => r | Exc e => Exc e end, s2, (t1 ++ t2)%list).

Definition emit (ev : Event) : M unit := fun s => (Val tt, s, [ev]).

Definition get_dom : M Dom := fun s => (Val (dom s), s, []).

Definition modify_dom (f : Dom -> Dom) : M unit :=
  fun s => (Val tt, mkState (f (dom s)) (localStorage s), []).

Declare Scope js_scope.
Delimit Scope js_scope with js.
Notation "x <- m ;; k" := (bind m (fun x => k))
  (at level 100, m at next level, right associativity) : js_scope.
Notation "m ;; k" := (bind m (fun _ => k))
  (at level 100, right associativity) : js_scope.
Local Open Scope js_scope.

(** ** Browser primitives *)

(** [localStorage.getItem(key)]. *)
Definition getItem (key : string) : M (option string) :=
  fun s => (Val (localStorage s !! key), s, [EvGetItem key]).

(** [localStorage.setItem(key, value)]. *)
Definition setItem (key value : string) : M unit :=
  fun s => (Val tt, mkState (dom s) (<[key := value]> (localStorage s)),
            [EvSetItem key value]).

(** [await fetch(url, {...})]: rejects on a transport error. *)
Definition fetch (net : Network) (r : Request) : M Response :=
  fun s =>
    match net r with
    | NetFail e => (Exc e, s, [EvFetch r])
    | Resolved res => (Val res, s, [EvFetch r])
    end.

(** [await response.blob()]. *)
Definition blob (res : Response) : M Blob :=
  match body res with
  | BlobOk b => ret b
  | BlobFail e => throw e
  end.

(** [console.error(error)]. *)
Definition console_error (e : JsError) : M unit := emit (EvConsoleError e).

(** ** [showToast] (lines 7-36) *)

Definition toast_color (type : string) : string :=
  if String.eqb type "success" then "#10b981"
  else if String.eqb type "error" then "#ef4444"
  else if String.eqb type "warning" then "#f59e0b"
  else "#222".

Definition set_toast (t : Toast) (d : Dom) : Dom :=
  mkDom (controls d) (skill_tags d) (qh_status d) (submit_btn d) (Some t)
        (progress_container d) (progress_fill d) (progress_text d) (credit_count d).

Definition showToast (message type : string) : M unit :=
  modify_dom (set_toast (mkToast message (toast_color type))) ;;
  emit (EvToast message type).

(** ** [downloadBlob] (lines 39-50): a hidden link is clicked; the link is
    removed again by a timer. *)
Definition downloadBlob (b : Blob) (filename : string) : M unit :=
  emit (EvDownload b filename).

(** ** The submit handler (lines 53-167) *)

Definition dquote : string := String (ascii_of_nat 34) EmptyString.

Definition spinner_html : string :=
  "<i class=" +:+ dquote +:+ "fas fa-spinner fa-spin" +:+ dquote
  +:+ "></i> Generating...".

Definition set_status (text : string) (d : Dom) : Dom :=
  mkDom (controls d) (skill_tags d) (Some text) (submit_btn d) (qh_toast d)
        (progress_container d) (progress_fill d) (progress_text d) (credit_count d).

Definition set_button (b : Button) (d : Dom) : Dom :=
  mkDom (controls d) (skill_tags d) (qh_status d) b (qh_toast d)
        (progress_container d) (progress_fill d) (progress_text d) (credit_count d).

Definition set_progress (c f t : option string) (d : Dom) : Dom :=
  mkDom (controls d) (skill_tags d) (qh_status d) (submit_btn d) (qh_toast d)
        c f t (credit_count d).

(** Lines 57-65 and 150, 161: [statusLive] is found or created, then its
    text is set. *)
Definition announce (text : string) : M unit :=
  modify_dom (set_status text) ;;
  emit (EvStatus text).

(** Lines 67-70. *)
Definition disable_submit : M string :=
  d <- get_dom ;;
  let originalBtnHTML := innerHTML (submit_btn d) in
  modify_dom (set_button (mkButton true spinner_html)) ;;
  ret originalBtnHTML.

(** Lines 77-78, 103-104, 164-165. *)
Definition restore_submit (originalBtnHTML : string) : M unit :=
  modify_dom (set_button (mkButton false originalBtnHTML)).

(** Line 75: the condition under which the submission is refused. *)
Definition gate_blocks (userPlan : string) (credits : jsnum) : bool :=
  negb (String.eqb userPlan "premium") && le0 credits.

(** Line 83. *)
Definition getVal (d : Dom) (id : string) : string :=
  trim (opt_or (controls d !! id) "").

(** Lines 84-96. *)
Definition formData (d : Dom) : SubmissionRecord :=
  {| current_position := getVal d "currentPosition";
     years_experience := getVal d "yearsExperience";
     education := getVal d "education";
     skills := map trim (skill_tags d);
     experience := getVal d "experience";
     target_position := getVal d "targetPosition";
     achievements := getVal d "achievements";
     projects := getVal d "projects";
     industry := getVal d "industry";
     tone := getVal d "tone";
     job_description := getVal d "jobDescription" |}.

Definition gather_form_data : M SubmissionRecord :=
  d <- get_dom ;;
  ret (formData d).

(** The value of [formData[key]]. *)
Inductive Value : Type :=
| VString (s : string)
| VArray (l : list string)
| VUndefined.

Definition prop (r : SubmissionRecord) (key : string) : Value :=
  if String.eqb key "current_position" then VString (current_position r)
  else if String.eqb key "years_experience" then VString (years_experience r)
  else if String.eqb key "education" then VString (education r)
  else if String.eqb key "skills" then VArray (skills r)
  else if String.eqb key "experience" then VString (experience r)
  else if String.eqb key "target_position" then VString (target_position r)
  else if String.eqb key "achievements" then VString (achievements r)
  else if String.eqb key "projects" then VString (projects r)
  else if String.eqb key "industry" then VString (industry r)
  else if String.eqb key "tone" then VString (tone r)
  else if String.eqb key "job_description" then VString (job_description r)
  else VUndefined.

(** [!v]. *)
Definition falsy (v : Value) : bool :=
  match v with
  | VString s => negb (truthy s)
  | VArray _ => false
  | VUndefined => true
  end.

(** Line 99. *)
Definition requiredFields : list string :=
  ["current_position"; "years_experience"; "target_position"; "industry"].

(** Lines 100-107: the key at which the loop returns, if it does. *)
Fixpoint first_missing (keys : list string) (r : SubmissionRecord) : option string :=
  match keys with
  | [] => None
  | key :: rest => if falsy (prop r key) then Some key else first_missing rest r
  end.

Definition progress_present (d : Dom) : bool :=
  match progress_container d, progress_fill d, progress_text d with
  | Some _, Some _, Some _ => true
  | _, _, _ => false
  end.

(** Lines 110-117. *)
Definition show_progress : M unit :=
  modify_dom (fun d =>
    if progress_present d
    then set_progress (Some "block") (Some "0%") (Some "Generating your documents...") d
    else d).

(** Lines 153-157; the bar is hidden later by a timer. *)
Definition complete_progress : M unit :=
  modify_dom (fun d =>
    if progress_present d
    then set_progress (progress_container d) (Some "100%") (Some "Done!") d
    else d).

(** Line 162. *)
Definition hide_progress : M unit :=
  modify_dom (fun d =>
    match progress_container d with
    | Some _ => set_progress (Some "none") (progress_fill d) (progress_text d) d
    | None => d
    end).

Definition resume_url : string := "http://localhost:8000/generate-resume".
Definition cover_letter_url : string := "http://localhost:8000/generate-cover-letter".
Definition resume_filename : string := "QuickHire_Resume.pdf".
Definition cover_letter_filename : string := "QuickHire_Cover_Letter.pdf".
Definition credits_key : string := "quickhire_credits".
Definition plan_key : string := "quickhire_plan".

Definition post (url : string) (r : SubmissionRecord) : Request :=
  mkRequest url "POST" "application/json" r.

(** The [TypeError] raised by an assignment to a property of [null]
    (wording of V8; no statement below depends on it). *)
Definition null_textContent : JsError :=
  mkError "TypeError" "Cannot set properties of null (setting 'textContent')".

(** Line 147, left-hand side: [document.getElementById('credit-count').textContent = text]. *)
Definition set_credit_count (text : string) : M unit :=
  d <- get_dom ;;
  match credit_count d with
  | None => throw null_textContent
  | Some _ =>
      modify_dom (fun d =>
        mkDom (controls d) (skill_tags d) (qh_status d) (submit_btn d) (qh_toast d)
              (progress_container d) (progress_fill d) (progress_text d) (Some text))
  end.

(** [if (!res.ok) throw new Error(message)]. *)
Definition check_ok (res : Response) (message : string) : M unit :=
  if ok res then ret tt else throw (mkError "Error" message).

(** Lines 143-146: the new value of the variable [credits]. *)
Definition charge (userPlan : string) (credits : jsnum) : M jsnum :=
  if negb (String.eqb userPlan "premium")
  then setItem credits_key (to_string (decrement credits)) ;; ret (decrement credits)
  else ret credits.

Definition infinity_sign : string := "∞".

(** Lines 120-157: the body of the [try] block. *)
Definition try_block (net : Network) (userPlan : string) (credits : jsnum)
    (data : SubmissionRecord) : M unit :=
  resumeRes <- fetch net (post resume_url data) ;;
  check_ok resumeRes "Failed to generate resume." ;;
  resumeBlob <- blob resumeRes ;;
  downloadBlob resumeBlob resume_filename ;;
  coverLetterRes <- fetch net (post cover_letter_url data) ;;
  check_ok coverLetterRes "Failed to generate cover letter." ;;
  coverLetterBlob <- blob coverLetterRes ;;
  downloadBlob coverLetterBlob cover_letter_filename ;;
  credits' <- charge userPlan credits ;;
  set_credit_count (if String.eqb userPlan "premium" then infinity_sign
                    else to_string credits') ;;
  showToast "Your Resume & Cover Letter are ready!" "success" ;;
  announce "Generation complete." ;;
  complete_progress.

(** [error.message || error], as text. *)
Definition error_text (e : JsError) : string :=
  or_else (err_message e) (err_name e).


(** Lines 158-163: the [catch] block. *)
Definition catch_block (error : JsError) : M unit :=
  console_error error ;;
  showToast ("❌ Error: " +:+ error_text error) "error" ;;
  announce "Error occurred." ;;
  hide_progress.

(** The [return] or the end of block at which the handler leaves. *)
Inductive Exit : Type :=
| ExitCreditGate            (* line 79 *)
| ExitValidation            (* line 105 *)
| ExitDone                  (* end of the [try] block *)
| ExitCaught (e : JsError). (* end of the [catch] block *)

Definition no_credits_message : string :=
  "No credits left. Please invite friends or upgrade.".
Definition required_message : string := "Please fill out all required fields.".

Definition submit_handler (net : Network) : M Exit :=
  emit EvPreventDefault ;;
  announce "Generating documents..." ;;
  originalBtnHTML <- disable_submit ;;
  stored <- getItem credits_key ;;
  let credits := parseInt (opt_or stored "1") in
  plan <- getItem plan_key ;;
  let userPlan := opt_or plan "free" in
  if gate_blocks userPlan credits then
    showToast no_credits_message "error" ;;
    restore_submit originalBtnHTML ;;
    ret ExitCreditGate
  else
    data <- gather_form_data ;;
    match first_missing requiredFields data with
    | Some _ =>
        showToast required_message "error" ;;
        restore_submit originalBtnHTML ;;
        ret ExitValidation
    | None =>
        show_progress ;;
        finally
          (try_catch
             (try_block net userPlan credits data ;; ret ExitDone)
             (fun error => catch_block error ;; ret (ExitCaught error)))
          (restore_submit originalBtnHTML)
    end.

(** One orchestration: the exit taken, the final state and the trace. *)
Definition run (net : Network) (s : State) : Res Exit * State * list Event :=
  submit_handler net s.

(** ** Observing a run *)

Definition Run : Type := Res Exit * State * list Event.

Definition exit_of (x : Run) : Res Exit := fst (fst x).
Definition state_of (x : Run) : State := snd (fst x).
Definition trace_of (x : Run) : list Event := snd x.

(** The variables [credits] and [userPlan] of lines 73-74, as functions of
    the store. *)
Definition credits_of (ls : gmap string string) : jsnum :=
  parseInt (opt_or (ls !! credits_key) "1").
Definition plan_of (ls : gmap string string) : string :=
  opt_or (ls !! plan_key) "free".

Definition stored_credits (s : State) : jsnum := credits_of (localStorage s).
Definition stored_plan (s : State) : string := plan_of (localStorage s).

Definition is_fetch (url : string) (ev : Event) : bool :=
  match ev with
  | EvFetch r => String.eqb (req_url r) url
  | _ => false
  end.

(** Was a request sent to [url]? *)
Definition fetched (url : string) (t : list Event) : bool :=
  existsb (is_fetch url) t.

Definition requests (t : list Event) : list Request :=
  flat_map (fun ev => match ev with EvFetch r => [r] | _ => [] end) t.

Definition downloads (t : list Event) : list (Blob * string) :=
  flat_map (fun ev => match ev with EvDownload b f => [(b, f)] | _ => [] end) t.

Definition storage_accesses (t : list Event) : list Event :=
  List.filter (fun ev => match ev with
                    | EvGetItem _ | EvSetItem _ _ => true
                    | _ => false
                    end) t.

Definition storage_writes (t : list Event) : list (string * string) :=
  flat_map (fun ev => match ev with EvSetItem k v => [(k, v)] | _ => [] end) t.

Definition toasts (t : list Event) : list (string * string) :=
  flat_map (fun ev => match ev with EvToast m ty => [(m, ty)] | _ => [] end) t.

Definition announcements (t : list Event) : list string :=
  flat_map (fun ev => match ev with EvStatus text => [text] | _ => [] end) t.

(** A request that errors (transport) or answers with a non-success
    status. *)
Definition failed (fr : FetchResult) : bool :=
  match fr with
  | NetFail _ => true
  | Resolved r => negb (ok r)
  end.

(** A request that answers with a success status and a readable body. *)
Definition succeeded (fr : FetchResult) : bool :=
  match fr with
  | Resolved {| ok := true; body := BlobOk _ |} => true
  | _ => false
  end.

(** The answers to the two requests the handler builds from the page. *)
Definition resume_result (net : Network) (s : State) : FetchResult :=
  net (post resume_url (formData (dom s))).
Definition cover_letter_result (net : Network) (s : State) : FetchResult :=
  net (post cover_letter_url (formData (dom s))).

(** Both requests are sent in the run and both succeed. *)
Definition both_succeed (net : Network) (s : State) : bool :=
  fetched resume_url (trace_of (run net s))
  && fetched cover_letter_url (trace_of (run net s))
  && succeeded (resume_result net s)
  && succeeded (cover_letter_result net s).

(** The gate lets the submission through. *)
Definition admitted (net : Network) (s : State) : Prop :=
  exit_of (run net s) <> Val ExitCreditGate.

Definition some_required_empty (r : SubmissionRecord) : Prop :=
  current_position r = "" \/ years_experience r = ""
  \/ target_position r = "" \/ industry r = "".

(** ** Sample pages, stores and servers *)

Definition filled_controls : gmap string string :=
  list_to_map [("currentPosition", " Analyst "); ("yearsExperience", "3");
               ("targetPosition", "Engineer"); ("industry", "Tech")].

Definition sample_page (c : gmap string string) (cc : option string) : Dom :=
  mkDom c ["Rocq "; "SQL"] None (mkButton false "Generate") None
        (Some "none") (Some "0%") (Some "") cc.

Definition sample_store (plan credits : option string) : gmap string string :=
  let m := match plan with Some p => <[plan_key := p]> ∅ | None => ∅ end in
  match credits with Some c => <[credits_key := c]> m | None => m end.

Definition ok_response (b : Blob) : FetchResult :=
  Resolved (mkResponse true (BlobOk b)).

Definition http_500 : FetchResult :=
  Resolved (mkResponse false (BlobOk "Internal Server Error")).

Definition server (resume cover : FetchResult) : Network :=
  fun r => if String.eqb (req_url r) resume_url then resume else cover.

Definition server_ok : Network :=
  server (ok_response "resume.pdf") (ok_response "letter.pdf").

Definition server_resume_500 : Network := server http_500 (ok_response "letter.pdf").
Definition server_cover_500 : Network := server (ok_response "resume.pdf") http_500.

Definition state_free_1 : State :=
  mkState (sample_page filled_controls (Some "1"))
          (sample_store (Some "free") (Some "1")).

Definition state_premium_0 : State :=
  mkState (sample_page filled_controls (Some "0"))
          (sample_store (Some "premium") (Some "0")).

Definition state_no_industry_0 : State :=
  mkState (sample_page (delete "industry" filled_controls) (Some "0"))
          (sample_store None (Some "0")).

Definition state_no_industry_1 : State :=
  mkState (sample_page (<["industry" := "   "]> filled_controls) (Some "1"))
          (sample_store None None).

Definition state_unparsable : State :=
  mkState (sample_page filled_controls (Some "?"))
          (sample_store None (Some "abc")).

Definition state_gold_2 : State :=
  mkState (sample_page filled_controls (Some "2"))
          (sample_store (Some "gold") (Some "2")).


(** ** Naming a field in a message *)

Definition lower_ascii (c : ascii) : ascii :=
  let n := N_of_ascii c in
  if ((65 <=? n) && (n <=? 90))%N then ascii_of_N (n + 32) else c.

Fixpoint lower (s : string) : string :=
  match s with
  | EmptyString => EmptyString
  | String c s' => String (lower_ascii c) (lower s')
  end.

(** The ways a message could refer to a required field: its key in
    [formData], the id of its control, its label, or a word of these. *)
Definition field_names (key : string) : list string :=
  if String.eqb key "current_position"
  then ["current_position"; "currentPosition"; "current position"; "current"; "position"]
  else if String.eqb key "years_experience"
  then ["years_experience"; "yearsExperience"; "years of experience"; "years"; "experience"]
  else if String.eqb key "target_position"
  then ["target_position"; "targetPosition"; "target position"; "target"; "position"]
  else [key].

Definition names_field (message key : string) : bool :=
  existsb (fun n => includes (lower n) (lower message)) (field_names key).

(** ** Successive runs on one store *)

Inductive reachable (ls0 : gmap string string) : gmap string string -> Prop :=
| reach_start : reachable ls0 ls0
| reach_run (net : Network) (d : Dom) (ls : gmap string string) :
    reachable ls0 ls ->
    reachable ls0 (localStorage (state_of (run net (mkState d ls)))).


(** ** The statements of the specification that the code does not meet *)

(** Nothing is offered for download when the cover letter fails. *)
Definition all_or_nothing (net : Network) (s : State) : Prop :=
  fetched resume_url (trace_of (run net s)) = true ->
  succeeded (resume_result net s) = true ->
  failed (cover_letter_result net s) = true ->
  downloads (trace_of (run net s)) = []
  /\ localStorage (state_of (run net s)) = localStorage s.

(** A missing required field ends the run in the validation failure
    before the store is read, the gate evaluated or a request sent. *)
Definition validation_comes_first (net : Network) (s : State) : Prop :=
  some_required_empty (formData (dom s)) ->
  exit_of (run net s) = Val ExitValidation
  /\ storage_accesses (trace_of (run net s)) = []
  /\ requests (trace_of (run net s)) = []
  /\ localStorage (state_of (run net s)) = localStorage s.

(** A successful run lowers the credits by one unless the plan is
    premium, and shows the new balance, or the infinity sign. *)
Definition charged_exactly_one (net : Network) (s : State) : Prop :=
  both_succeed net s = true ->
  (stored_plan s <> "premium" ->
   exists n, stored_credits s = Num n
             /\ stored_credits (state_of (run net s)) = Num (n - 1))
  /\ (stored_plan s = "premium" ->
      localStorage (state_of (run net s)) = localStorage s)
  /\ credit_count (dom (state_of (run net s)))
     = Some (if String.eqb (stored_plan s) "premium" then infinity_sign
             else to_string (stored_credits (state_of (run net s)))).

(** The gate admits exactly the premium plan and positive credits. *)
Definition gate_rule (net : Network) (s : State) : Prop :=
  admitted net s <-> (stored_plan s = "premium" \/ gt0 (stored_credits s) = true).

(** The message of a validation failure names a missing required field. *)
Definition names_a_missing_field (net : Network) (s : State) : Prop :=
  exit_of (run net s) = Val ExitValidation ->
  exists key t,
    In key requiredFields
    /\ falsy (prop (formData (dom s)) key) = true
    /\ qh_toast (dom (state_of (run net s))) = Some t
    /\ names_field (toast_text t) key = true.

(** The credits only change on the free plan, by one, after both
    artifacts, and stay non-negative. *)
Definition charged_only_when_free (net : Network) (s : State) : Prop :=
  forall n, stored_credits s = Num n -> 0 <= n ->
  (localStorage (state_of (run net s)) = localStorage s
   \/ (stored_plan s = "free"
       /\ both_succeed net s = true
       /\ stored_credits (state_of (run net s)) = Num (n - 1)))
  /\ exists m, stored_credits (state_of (run net s)) = Num m /\ 0 <= m.

(** ** More observations of the handler *)

(** The error that a request raises in the [try] block, if any: the
    rejection of [fetch], the [Error] of a non-success status, or the
    rejection of [blob()]. *)
Definition thrown_by (fr : FetchResult) (message : string) (e : JsError) : Prop :=
  match fr with
  | NetFail e' => e = e'
  | Resolved {| ok := false; body := _ |} => e = mkError "Error" message
  | Resolved {| ok := true; body := BlobFail e' |} => e = e'
  | Resolved {| ok := true; body := BlobOk _ |} => False
  end.

(** The toast of a refused submission (lines 76 and 102). *)
Definition refusal_message (s : State) : string :=
  if gate_blocks (stored_plan s) (stored_credits s)
  then no_credits_message else required_message.

(** The ids of the controls behind the required fields (lines 85-93). *)
Definition required_controls : list string :=
  ["currentPosition"; "yearsExperience"; "targetPosition"; "industry"].

(** The control exists and holds something other than white space. *)
Definition filled (d : Dom) (id : string) : Prop :=
  exists v, controls d !! id = Some v /\ blank v = false.

(** A number of the model that is a JavaScript number. *)
Definition representable (x : jsnum) : Prop :=
  match x with
  | NaN => True
  | Num n => Z.abs n <= max_exact
  end.

(** The store after a list of runs, each on its own page and against its
    own server, and the number of those runs in which both requests
    succeed. *)
Fixpoint store_after (runs : list (Network * Dom)) (ls : gmap string string)
    : gmap string string :=
  match runs with
  | [] => ls
  | (net, d) :: rest =>
      store_after rest (localStorage (state_of (run net (mkState d ls))))
  end.

Fixpoint generations (runs : list (Network * Dom)) (ls : gmap string string) : Z :=
  match runs with
  | [] => 0
  | (net, d) :: rest =>
      (if both_succeed net (mkState d ls) then 1 else 0)
      + generations rest (localStorage (state_of (run net (mkState d ls))))
  end.

(** ** [updatePlanUI] (lines 170-180) *)

Definition put_credit_count (text : string) (d : Dom) : Dom :=
  mkDom (controls d) (skill_tags d) (qh_status d) (submit_btn d) (qh_toast d)
        (progress_container d) (progress_fill d) (progress_text d) (Some text).

Section PlanUI.

(** [userPlan.charAt(0).toUpperCase() + userPlan.slice(1)]: the case
    tables of Unicode are not part of the model, so the value of this
    expression is a parameter. *)
Variable capitalized : string -> string.

(** [plan_label] is the text of [#plan-label], [None] when the page has no
    such element; the result is its text afterwards. *)
Definition updatePlanUI (plan_label : option string) : M (option string) :=
  plan <- getItem plan_key ;;
  let userPlan := opt_or plan "free" in
  let plan_label' :=
    match plan_label with
    | Some _ => Some (capitalized userPlan)
    | None => None
    end in
  d <- get_dom ;;
  match credit_count d with
  | Some _ =>
      stored <- getItem credits_key ;;
      let credits := parseInt (opt_or stored "1") in
      modify_dom (put_credit_count
                    (if String.eqb userPlan "premium" then infinity_sign
                     else to_string credits)) ;;
      ret plan_label'
  | None => ret plan_label'
  end.

End PlanUI.

(** ** Tabs (lines 183-202) *)

(** A [.form-tab] element: its [data-tab] attribute, its text and whether
    its class list holds [active]. *)
Record TabButton : Type := mkTabButton {
  data_tab : option string;
  tab_text : string;
  tab_active : bool
}.

(** What [switchTab] looks at: the inline [display] of the elements found
    by id, and the [.form-tab] elements in document order. *)
Record Tabs : Type := mkTabs {
  tab_display : gmap string string;
  tab_buttons : list TabButton
}.

Definition tab_names : list string := ["basic"; "experience"; "preferences"].

Definition content_id (t : string) : string := t +:+ "-tab".

Definition has_data_tab (t : string) (b : TabButton) : bool :=
  match data_tab b with
  | Some x => String.eqb x t
  | None => false
  end.

(** [document.querySelector(`.form-tab[data-tab="${t}"]`)]. *)
Definition query_tab (t : string) (l : list TabButton) : option TabButton :=
  List.find (has_data_tab t) l.

Definition set_active (on : bool) (b : TabButton) : TabButton :=
  mkTabButton (data_tab b) (tab_text b) on.

(** [classList.toggle('active', on)] on the element that [querySelector]
    finds, if any. *)
Fixpoint toggle_active (t : string) (on : bool) (l : list TabButton)
    : list TabButton :=
  match l with
  | [] => []
  | b :: rest =>
      if has_data_tab t b
      then set_active on b :: rest
      else b :: toggle_active t on rest
  end.

(** The body of the [forEach] of lines 196-201. *)
Definition switch_one (tab : string) (ui : Tabs) (t : string) : Tabs :=
  mkTabs
    (match tab_display ui !! content_id t with
     | Some _ =>
         <[content_id t := if String.eqb t tab then "" else "none"]>
           (tab_display ui)
     | None => tab_display ui
     end)
    (toggle_active t (String.eqb t tab) (tab_buttons ui)).

Definition switchTab (tab : string) (ui : Tabs) : Tabs :=
  fold_left (switch_one tab) tab_names ui.

Section TabClick.

(** [String.prototype.toLowerCase]: a parameter, like the other case
    tables. *)
Variable toLowerCase : string -> string.

(** Lines 185-187. *)
Definition tab_of_button (b : TabButton) : string :=
  opt_or (data_tab b)
    (if includes "basic" (toLowerCase (tab_text b)) then "basic"
     else if includes "experience" (toLowerCase (tab_text b)) then "experience"
     else "preferences").

(** A click on the [i]-th [.form-tab] (lines 184-189). *)
Definition click_tab (i : nat) (ui : Tabs) : Tabs :=
  match tab_buttons ui !! i with
  | Some b => switchTab (tab_of_button b) ui
  | None => ui
  end.

End TabClick.

(** ** Skill tags (lines 205-221) *)

(** The value of the [#skills] input and the labels of the children of
    [#skills-tags] ([None] when the page has no such container). *)
Record SkillsUi : Type := mkSkillsUi {
  skills_value : string;
  skill_labels : option (list string)
}.

Inductive AddResult : Type :=
| SkillIgnored      (* the condition of line 208 is false *)
| SkillDuplicate    (* line 211 returns *)
| SkillAdded.       (* line 218 is reached *)

Definition null_children : JsError :=
  mkError "TypeError" "Cannot read properties of null (reading 'children')".
Definition null_onclick : JsError :=
  mkError "TypeError" "Cannot set properties of null (setting 'onclick')".

(** Text that the HTML parser takes as it is: no [<], no [&], no NUL and
    no carriage return. *)
Fixpoint plain (s : string) : bool :=
  match s with
  | EmptyString => true
  | String c r =>
      negb ((code c =? 60) || (code c =? 38) || (code c =? 0) || (code c =? 13))%N
      && plain r
  end.

Section Skills.

(** What line 214 builds from [value]: the text of the first child of the
    new tag, or [None] when the markup leaves the tag without an element
    of class [remove]. The HTML parser is not part of the model. *)
Variable tag_label : string -> option string.

(** [addSkill] for a [keypress] of [key] (lines 207-220). *)
Definition addSkill (key : string) (ui : SkillsUi) : Res AddResult * SkillsUi :=
  if String.eqb key "Enter" && truthy (trim (skills_value ui)) then
    let value := trim (skills_value ui) in
    match skill_labels ui with
    | None => (Exc null_children, ui)
    | Some labels =>
        if existsb (fun l => String.eqb (trim l) value) labels
        then (Val SkillDuplicate, ui)
        else match tag_label value with
             | None => (Exc null_onclick, ui)
             | Some label =>
                 (Val SkillAdded, mkSkillsUi "" (Some (labels ++ [label])%list))
             end
    end
  else (Val SkillIgnored, ui).

(** [tag.remove()] for the [i]-th tag (lines 215-216). *)
Definition removeSkill (i : nat) (ui : SkillsUi) : SkillsUi :=
  mkSkillsUi (skills_value ui) (delete i <$> skill_labels ui).

Inductive SkillsEvent : Type :=
| SkType (text : string)      (* the user edits the input *)
| SkKeypress (key : string)   (* a key is pressed in the input *)
| SkRemove (i : nat).         (* the remove control of a tag is used *)

Definition skills_step (ui : SkillsUi) (ev : SkillsEvent) : SkillsUi :=
  match ev with
  | SkType text => mkSkillsUi text (skill_labels ui)
  | SkKeypress key => snd (addSkill key ui)
  | SkRemove i => removeSkill i ui
  end.

End Skills.

Definition labels_of (ui : SkillsUi) : list string :=
  match skill_labels ui with Some l => l | None => [] end.

Definition typed_plain (ev : SkillsEvent) : Prop :=
  match ev with
  | SkType text => plain text = true
  | _ => True
  end.

(** No label twice, every label trimmed and not empty. *)
Definition tidy (labels : list string) : Prop :=
  NoDup labels /\ Forall (fun l => trim l = l /\ l <> "") labels.

(** ** Document types (lines 224-235) *)










(** ** The progress animation (lines 245-263) *)

(** The variable [progress] of the listener and whether its interval is
    still set. *)
Record Animation : Type := mkAnimation { progress : Z; running : bool }.

(** Lines 250-253, on a page that has the three progress elements (the
    listener is only registered then, line 248). *)
Definition start_animation (d : Dom) : Dom * option Animation :=
  if progress_present d
  then (set_progress (Some "block") (Some "0%")
                     (Some "Generating your documents...") d,
        Some (mkAnimation 0 true))
  else (d, None).

(** Lines 255-260: one firing of the interval; once the interval is
    cleared nothing fires any more. *)
Definition tick (x : Dom * Animation) : Dom * Animation :=
  let '(d, a) := x in
  if running a then
    let p := progress a + 10 in
    let d1 := set_progress (progress_container d)
                           (Some (to_string (Num p) +:+ "%"))
                           (progress_text d) d in
    if 100 <=? p
    then (set_progress (progress_container d1) (progress_fill d1)
                       (Some "Done!") d1,
          mkAnimation p false)
    else (d1, mkAnimation p true)
  else (d, a).

Definition ticks (k : nat) (x : Dom * Animation) : Dom * Animation :=
  Nat.iter k tick x.

(** The page while the bar is shown at [p] percent under [text]. *)
Definition animated (d : Dom) (p : Z) (text : string) : Dom :=
  set_progress (Some "block") (Some (to_string (Num p) +:+ "%")) (Some text) d.

(** ** More sample inputs *)

Definition sample_tabs : Tabs :=
  mkTabs (list_to_map [("basic-tab", ""); ("experience-tab", "none");
                       ("preferences-tab", "none"); ("other", "block")])
         [mkTabButton (Some "basic") "Basic" true;
          mkTabButton None "Work EXPERIENCE" false;
          mkTabButton (Some "experience") "Experience" false;
          mkTabButton (Some "preferences") "Preferences" false].

Definition sample_skill_events : list SkillsEvent :=
  [SkType " Rocq "; SkKeypress "Enter"; SkType "Rocq"; SkKeypress "Enter";
   SkType "SQL"; SkKeypress "Enter"; SkRemove 0].

(** ** Symbolic execution of the handler *)

Ltac run_unfold :=
  cbv beta iota zeta delta
    [run submit_handler bind ret throw try_catch finally emit get_dom modify_dom
     getItem setItem fetch blob console_error showToast downloadBlob announce
     disable_submit restore_submit gather_form_data show_progress
     complete_progress hide_progress set_credit_count check_ok charge try_block
     catch_block app fst snd dom localStorage exit_of state_of trace_of
     stored_credits stored_plan credits_of plan_of resume_result
     cover_letter_result both_succeed admitted
     set_button set_status set_toast set_progress progress_present formData getVal
     controls skill_tags qh_status submit_btn qh_toast progress_container
     progress_fill progress_text credit_count ok body negb] in *.

Ltac run_split :=
  match goal with
  | |- context [if gate_blocks ?p ?c then _ else _] =>
      destruct (gate_blocks p c) eqn:?
  | |- context [match first_missing ?k ?r with _ => _ end] =>
      destruct (first_missing k r) eqn:?
  | |- context [match ?net ?r with NetFail _ => _ | Resolved _ => _ end] =>
      destruct (net r) as [?|[[] []]] eqn:?
  | |- context [if String.eqb ?p "premium" then _ else _] =>
      destruct (String.eqb p "premium") eqn:?
  | |- context [match ?o with Some _ => _ | None => _ end] =>
      is_var o; destruct o
  end.

(** Every path of the handler from an arbitrary state, with the
    hypotheses of the goal carried along. *)
Ltac run_paths :=
  run_unfold; repeat (run_split; run_unfold).

(** ** Results *)

(** *** The primitives and the handler on sample inputs *)

Example trim_strips_both_ends : trim "   Data Engineer  " = "Data Engineer".
Proof. reflexivity. Qed.

Example trim_blank : trim "   " = "".
Proof. reflexivity. Qed.

Example parseInt_prefix : parseInt "  -12px" = Num (-12).
Proof. reflexivity. Qed.

Example parseInt_no_digit : parseInt "abc" = NaN.
Proof. reflexivity. Qed.

Example to_string_negative : to_string (Num (-120)) = "-120".
Proof. reflexivity. Qed.

(** Free plan, one credit, both endpoints succeed: two downloads, the
    credits become 0 and the counter shows 0. *)
Example scenario_a :
  exit_of (run server_ok state_free_1) = Val ExitDone
  /\ downloads (trace_of (run server_ok state_free_1))
     = [("resume.pdf", resume_filename); ("letter.pdf", cover_letter_filename)]
  /\ localStorage (state_of (run server_ok state_free_1)) !! credits_key
     = Some "0"
  /\ credit_count (dom (state_of (run server_ok state_free_1))) = Some "0".
Proof. repeat split; reflexivity. Qed.

(** Premium plan, no credit: the gate admits, the credits stay 0 and the
    counter shows the infinity sign. *)
Example scenario_b :
  exit_of (run server_ok state_premium_0) = Val ExitDone
  /\ localStorage (state_of (run server_ok state_premium_0)) !! credits_key
     = Some "0"
  /\ credit_count (dom (state_of (run server_ok state_premium_0)))
     = Some infinity_sign.
Proof. repeat split; reflexivity. Qed.

(** Free plan, one credit, the resume endpoint answers 500: the error is
    caught, the credits stay 1 and the cover letter is not requested. *)
Example scenario_c :
  exit_of (run server_resume_500 state_free_1)
  = Val (ExitCaught (mkError "Error" "Failed to generate resume."))
  /\ localStorage (state_of (run server_resume_500 state_free_1)) !! credits_key
     = Some "1"
  /\ requests (trace_of (run server_resume_500 state_free_1))
     = [post resume_url (formData (dom state_free_1))].
Proof. repeat split; reflexivity. Qed.

(** Industry left blank: the handler leaves by the validation return
    without a request; the store has been read twice. *)
Example scenario_d :
  exit_of (run server_ok state_no_industry_1) = Val ExitValidation
  /\ requests (trace_of (run server_ok state_no_industry_1)) = []
  /\ storage_accesses (trace_of (run server_ok state_no_industry_1))
     = [EvGetItem credits_key; EvGetItem plan_key].
Proof. repeat split; reflexivity. Qed.

(** *** Numbers written by the handler read back as themselves *)

Lemma trimStart_plain (c : ascii) (s : string) :
  ws1 c = false -> (code c <? 128)%N = true ->
  trimStart (String c s) = String c s.
Proof.
  intros Hws Hlt. apply N.ltb_lt in Hlt.
  assert (H2 : forall c2, ws2 c c2 = false).
  { intros c2. unfold ws2. destruct (N.eqb_spec (code c) 194); [lia | reflexivity]. }
  assert (H3 : forall c2 c3, ws3 c c2 c3 = false).
  { intros c2 c3. unfold ws3.
    destruct (N.eqb_spec (code c) 225); [lia|].
    destruct (N.eqb_spec (code c) 226); [lia|].
    destruct (N.eqb_spec (code c) 227); [lia|].
    destruct (N.eqb_spec (code c) 239); [lia|]. reflexivity. }
  simpl. rewrite Hws.
  destruct s as [|c2 [|c3 s3]]; try reflexivity.
  - now rewrite H2.
  - now rewrite H2, H3.
Qed.

Lemma digits_string_of_uint (d : uint) : digits (NilEmpty.string_of_uint d) = d.
Proof. induction d; simpl; congruence. Qed.

Lemma parseInt_uint (d : uint) :
  d <> Nil -> parseInt (NilEmpty.string_of_uint d) = Num (Z.of_uint d).
Proof.
  intros Hd.
  assert (Hu : unsigned (NilEmpty.string_of_uint d) = Num (Z.of_uint d)).
  { unfold unsigned. rewrite digits_string_of_uint. destruct d; congruence. }
  unfold parseInt.
  destruct d; try congruence; simpl NilEmpty.string_of_uint in *;
    rewrite trimStart_plain by reflexivity; exact Hu.
Qed.

Lemma parseInt_neg_uint (d : uint) :
  d <> Nil ->
  parseInt (String "-" (NilEmpty.string_of_uint d)) = Num (- Z.of_uint d).
Proof.
  intros Hd. unfold parseInt.
  rewrite trimStart_plain by reflexivity. rewrite Ascii.eqb_refl.
  unfold unsigned. rewrite digits_string_of_uint. destruct d; simpl; congruence.
Qed.

Lemma parseInt_to_string (n : Z) : parseInt (to_string (Num n)) = Num n.
Proof.
  unfold to_string. rewrite <- (DecimalZ.of_to n) at 2.
  destruct n as [|p|p]; simpl Z.to_int.
  - reflexivity.
  - unfold NilZero.string_of_int, NilZero.string_of_uint.
    pose proof (DecimalPos.Unsigned.to_uint_nonnil p) as Hp.
    destruct (Pos.to_uint p) eqn:E; try congruence;
      rewrite <- E in *; rewrite parseInt_uint by exact Hp; reflexivity.
  - unfold NilZero.string_of_int, NilZero.string_of_uint.
    pose proof (DecimalPos.Unsigned.to_uint_nonnil p) as Hp.
    destruct (Pos.to_uint p) eqn:E; try congruence;
      rewrite <- E in *; rewrite parseInt_neg_uint by exact Hp; reflexivity.
Qed.

Lemma to_string_nonempty (x : jsnum) : to_string x <> "".
Proof.
  destruct x as [|n]; [discriminate|].
  intros H. pose proof (parseInt_to_string n) as P. rewrite H in P.
  discriminate P.
Qed.

Lemma credits_of_insert (ls : gmap string string) (n : Z) :
  credits_of (<[credits_key := to_string (Num n)]> ls) = Num n.
Proof.
  unfold credits_of. rewrite lookup_insert_eq. unfold opt_or, or_else.
  pose proof (to_string_nonempty (Num n)) as Hne.
  destruct (to_string (Num n)) eqn:E; [congruence|].
  rewrite <- E. apply parseInt_to_string.
Qed.

Lemma plan_of_insert_credits (ls : gmap string string) (v : string) :
  plan_of (<[credits_key := v]> ls) = plan_of ls.
Proof. unfold plan_of. now rewrite lookup_insert_ne. Qed.

(** *** Required fields *)

Lemma first_missing_none (r : SubmissionRecord) :
  first_missing requiredFields r = None <-> ~ some_required_empty r.
Proof.
  unfold some_required_empty, requiredFields, first_missing, prop, falsy.
  simpl.
  destruct (current_position r), (years_experience r), (target_position r),
    (industry r); simpl; split; intros H; try discriminate; try reflexivity;
    try (intros [?|[?|[?|?]]]; discriminate);
    exfalso; apply H; auto.
Qed.

Lemma first_missing_some (r : SubmissionRecord) (k : string) :
  first_missing requiredFields r = Some k -> some_required_empty r.
Proof.
  intros Hk. unfold some_required_empty.
  destruct (current_position r) eqn:E1; [auto|].
  destruct (years_experience r) eqn:E2; [auto|].
  destruct (target_position r) eqn:E3; [auto|].
  destruct (industry r) eqn:E4; [auto|].
  exfalso. revert Hk.
  unfold requiredFields, first_missing, prop, falsy. simpl.
  rewrite E1, E2, E3, E4. discriminate.
Qed.

(** *** The gate *)

Lemma gate_blocks_false (p : string) (c : jsnum) :
  gate_blocks p c = false <-> p = "premium" \/ gt0 c = true \/ c = NaN.
Proof.
  unfold gate_blocks, le0, gt0.
  destruct (String.eqb_spec p "premium") as [->|Hp]; simpl.
  - split; auto.
  - destruct c as [|n]; simpl.
    + split; auto.
    + rewrite Z.leb_gt, Z.ltb_lt. split; [auto|].
      intros [?|[?|?]]; [contradiction | assumption | discriminate].
Qed.

(** *** Paths of the handler *)

(** No exception leaves the handler: whatever the page, the store and the
    network, it returns by one of its four exits. *)
Lemma handler_never_throws (net : Network) (s : State) :
  exists x, exit_of (run net s) = Val x.
Proof.
  destruct s as [[c sk st btn tst pc pf pt cc] ls].
  run_paths; eauto.
Qed.

Lemma exit_credit_gate (net : Network) (s : State) :
  exit_of (run net s) = Val ExitCreditGate
  <-> gate_blocks (stored_plan s) (stored_credits s) = true.
Proof.
  destruct s as [[c sk st btn tst pc pf pt cc] ls].
  run_paths; split; intros H; try discriminate H; reflexivity.
Qed.

Lemma gate_sends_nothing (net : Network) (s : State) :
  gate_blocks (stored_plan s) (stored_credits s) = true ->
  requests (trace_of (run net s)) = [].
Proof.
  destruct s as [[c sk st btn tst pc pf pt cc] ls].
  run_unfold. intros ->. reflexivity.
Qed.

Lemma exit_validation (net : Network) (s : State) :
  exit_of (run net s) = Val ExitValidation ->
  (exists k, first_missing requiredFields (formData (dom s)) = Some k)
  /\ qh_toast (dom (state_of (run net s)))
     = Some (mkToast required_message "#ef4444")
  /\ toasts (trace_of (run net s)) = [(required_message, "error")].
Proof.
  destruct s as [[c sk st btn tst pc pf pt cc] ls].
  run_paths; intros Hexit; try discriminate Hexit; eauto.
Qed.

Lemma both_succeed_inv (net : Network) (s : State) :
  both_succeed net s = true ->
  gate_blocks (stored_plan s) (stored_credits s) = false
  /\ first_missing requiredFields (formData (dom s)) = None
  /\ exists b1 b2, resume_result net s = ok_response b1
                   /\ cover_letter_result net s = ok_response b2.
Proof.
  destruct s as [[c sk st btn tst pc pf pt cc] ls].
  run_paths; intros Hboth; try discriminate Hboth; eauto 10.
Qed.

Lemma store_unchanged (net : Network) (s : State) :
  both_succeed net s = false \/ stored_plan s = "premium" ->
  localStorage (state_of (run net s)) = localStorage s
  /\ storage_writes (trace_of (run net s)) = [].
Proof.
  destruct s as [[c sk st btn tst pc pf pt cc] ls].
  run_paths; intros Hno; try (split; reflexivity).
  all: destruct Hno as [Hno|Hno]; try discriminate Hno.
  all: match goal with
       | H : String.eqb _ _ = false |- _ =>
           apply String.eqb_neq in H; contradiction
       end.
Qed.

Lemma charged_run (net : Network) (s : State) :
  both_succeed net s = true ->
  stored_plan s <> "premium" ->
  localStorage (state_of (run net s))
  = <[credits_key := to_string (decrement (stored_credits s))]> (localStorage s)
  /\ exists b1 b2 pre post,
       trace_of (run net s)
       = (pre ++ EvSetItem credits_key (to_string (decrement (stored_credits s)))
              :: post)%list
       /\ downloads pre = [(b1, resume_filename); (b2, cover_letter_filename)]
       /\ storage_writes pre = []
       /\ storage_writes post = [].
Proof.
  destruct s as [[c sk st btn tst pc pf pt cc] ls].
  run_paths; intros Hboth Hplan; try discriminate Hboth.
  all: try match goal with
           | H : String.eqb _ _ = true |- _ =>
               apply String.eqb_eq in H; contradiction
           end.
  all: split; [reflexivity|].
  all: match goal with
       | |- exists b1 b2 pre post,
              ?e1 :: ?e2 :: ?e3 :: ?e4 :: ?e5 :: EvDownload ?x ?f
                :: ?e7 :: EvDownload ?y ?g :: _ :: ?rest = _ /\ _ =>
           exists x, y, [e1; e2; e3; e4; e5; EvDownload x f; e7; EvDownload y g],
                  rest
       end.
  all: repeat split; reflexivity.
Qed.

Lemma exit_done_inv (net : Network) (s : State) :
  exit_of (run net s) = Val ExitDone ->
  both_succeed net s = true /\ credit_count (dom s) <> None.
Proof.
  destruct s as [[c sk st btn tst pc pf pt cc] ls].
  run_paths; intros Hexit; try discriminate Hexit; split;
    try reflexivity; discriminate.
Qed.

Lemma success_display (net : Network) (s : State) (old : string) :
  both_succeed net s = true ->
  credit_count (dom s) = Some old ->
  exit_of (run net s) = Val ExitDone
  /\ credit_count (dom (state_of (run net s)))
     = Some (if String.eqb (stored_plan s) "premium" then infinity_sign
             else to_string (decrement (stored_credits s))).
Proof.
  intros Hboth.
  destruct (both_succeed_inv net s Hboth) as (Hg & Hm & b1 & b2 & Hr & Hc).
  clear Hboth. revert Hg Hm Hr Hc.
  destruct s as [[c sk st btn tst pc pf pt cc] ls].
  run_paths; intros Hg Hm Hr Hc Hcc;
    try discriminate Hg; try discriminate Hm; try discriminate Hr;
    try discriminate Hc; try discriminate Hcc; split; reflexivity.
Qed.

(** One run from a store whose credits are the integer [n]: the store is
    left alone, or the plan is metered, the balance was positive, both
    artifacts were downloaded and the balance is now [n - 1]. *)
Lemma run_step_credits (net : Network) (d : Dom) (ls : gmap string string) (n : Z) :
  credits_of ls = Num n ->
  (localStorage (state_of (run net (mkState d ls))) = ls
   /\ storage_writes (trace_of (run net (mkState d ls))) = [])
  \/ (plan_of ls <> "premium"
      /\ 1 <= n
      /\ both_succeed net (mkState d ls) = true
      /\ credits_of (localStorage (state_of (run net (mkState d ls))))
         = Num (n - 1)
      /\ localStorage (state_of (run net (mkState d ls)))
         = <[credits_key := to_string (Num (n - 1))]> ls
      /\ exists b1 b2 pre post,
           trace_of (run net (mkState d ls))
           = (pre ++ EvSetItem credits_key (to_string (Num (n - 1))) :: post)%list
           /\ downloads pre
              = [(b1, resume_filename); (b2, cover_letter_filename)]
           /\ storage_writes pre = []
           /\ storage_writes post = []).
Proof.
  intros Hn. set (s := mkState d ls).
  destruct (both_succeed net s) eqn:Hboth.
  - destruct (String.eqb_spec (plan_of ls) "premium") as [Hp|Hp].
    + left. apply store_unchanged. now right.
    + right.
      destruct (both_succeed_inv net s Hboth) as (Hg & _).
      destruct (charged_run net s Hboth Hp) as (Hls & Htrace).
      change (stored_credits s) with (credits_of ls) in *.
      change (stored_plan s) with (plan_of ls) in *.
      change (localStorage s) with ls in *.
      rewrite Hn in *. simpl decrement in *.
      repeat split; try assumption.
      * apply gate_blocks_false in Hg.
        destruct Hg as [Hg|[Hg|Hg]]; [contradiction | | discriminate].
        simpl in Hg. apply Z.ltb_lt in Hg. lia.
      * rewrite Hls. apply credits_of_insert.
  - left. apply store_unchanged. now left.
Qed.

(** *** The claims *)

(** C1, as the specification words it, fails: with a failing cover-letter
    endpoint the resume has already been handed to the user. *)
Lemma resume_offered_despite_cover_failure :
  ~ all_or_nothing server_cover_500 state_free_1.
Proof.
  intros H. destruct (H eq_refl eq_refl eq_refl) as [Hd _].
  vm_compute in Hd. discriminate Hd.
Qed.

(** C1, amended. When the resume request succeeds and the cover-letter
    request fails (transport error or non-success status), exactly one
    artifact has been offered for download, the resume, under the name
    QuickHire_Resume.pdf; no cover letter is offered, nothing is written
    to the store, and the run ends in the [catch] block. *)
Theorem cover_failure_offers_resume_only (net : Network) (s : State) (b : Blob) :
  fetched resume_url (trace_of (run net s)) = true ->
  resume_result net s = ok_response b ->
  failed (cover_letter_result net s) = true ->
  downloads (trace_of (run net s)) = [(b, resume_filename)]
  /\ fetched cover_letter_url (trace_of (run net s)) = true
  /\ storage_writes (trace_of (run net s)) = []
  /\ localStorage (state_of (run net s)) = localStorage s
  /\ exists e, exit_of (run net s) = Val (ExitCaught e).
Proof.
  destruct s as [[c sk st btn tst pc pf pt cc] ls].
  run_paths; intros Hreq Hres Hcov;
    try discriminate Hreq; try discriminate Hres; try discriminate Hcov.
  all: injection Hres as <-; repeat split; eauto.
Qed.

Lemma cover_failure_offers_resume_only_witness :
  fetched resume_url (trace_of (run server_cover_500 state_free_1)) = true
  /\ resume_result server_cover_500 state_free_1 = ok_response "resume.pdf"
  /\ failed (cover_letter_result server_cover_500 state_free_1) = true
  /\ downloads (trace_of (run server_cover_500 state_free_1))
     = [("resume.pdf", resume_filename)]
  /\ localStorage (state_of (run server_cover_500 state_free_1))
     = localStorage state_free_1.
Proof.
  split; [reflexivity|]. split; [reflexivity|]. split; [reflexivity|].
  destruct (cover_failure_offers_resume_only server_cover_500 state_free_1
              "resume.pdf" eq_refl eq_refl eq_refl) as (Hd & _ & _ & Hs & _).
  split; [exact Hd | exact Hs].
Defined.

(** C2, as the specification words it, fails: with no credit left, a
    submission that lacks its industry is refused by the credit gate, after
    the store has been read. *)
Lemma gate_precedes_validation :
  ~ validation_comes_first server_ok state_no_industry_0.
Proof.
  intros H.
  assert (He : some_required_empty (formData (dom state_no_industry_0))).
  { right; right; right. reflexivity. }
  destruct (H He) as [Hx _]. vm_compute in Hx. discriminate Hx.
Qed.

(** C2, amended. When a required field is empty after trimming, no
    request is sent and the store is left as it was; the handler has read
    the credits and the plan from the store, in that order, and evaluated
    the gate: it leaves by the credit-gate return when the gate refuses,
    and by the validation return otherwise. *)
Theorem missing_field_rejected_after_gate (net : Network) (s : State) :
  some_required_empty (formData (dom s)) ->
  requests (trace_of (run net s)) = []
  /\ localStorage (state_of (run net s)) = localStorage s
  /\ storage_accesses (trace_of (run net s))
     = [EvGetItem credits_key; EvGetItem plan_key]
  /\ exit_of (run net s)
     = Val (if gate_blocks (stored_plan s) (stored_credits s)
            then ExitCreditGate else ExitValidation).
Proof.
  destruct s as [[c sk st btn tst pc pf pt cc] ls].
  run_unfold.
  destruct (gate_blocks _ _) eqn:Hgate; run_unfold.
  - intros _. repeat split.
  - destruct (first_missing _ _) eqn:Hmiss; run_unfold.
    + intros _. repeat split.
    + intros Hempty. apply first_missing_none in Hmiss. contradiction.
Qed.

Lemma missing_field_rejected_after_gate_witness :
  some_required_empty (formData (dom state_no_industry_1))
  /\ requests (trace_of (run server_ok state_no_industry_1)) = []
  /\ localStorage (state_of (run server_ok state_no_industry_1))
     = localStorage state_no_industry_1
  /\ exit_of (run server_ok state_no_industry_1) = Val ExitValidation.
Proof.
  assert (He : some_required_empty (formData (dom state_no_industry_1))).
  { right; right; right. reflexivity. }
  split; [exact He|].
  destruct (missing_field_rejected_after_gate server_ok state_no_industry_1 He)
    as (Hr & Hs & _ & Hx).
  split; [exact Hr|]. split; [exact Hs | exact Hx].
Defined.

(** C3. When the resume request errors or answers with a non-success
    status, no request is sent to the cover-letter endpoint, nothing is
    written to the store, and the stored plan and credits are what they
    were. *)
Theorem resume_failure_stops_run (net : Network) (s : State) :
  failed (resume_result net s) = true ->
  fetched cover_letter_url (trace_of (run net s)) = false
  /\ storage_writes (trace_of (run net s)) = []
  /\ localStorage (state_of (run net s)) = localStorage s.
Proof.
  destruct s as [[c sk st btn tst pc pf pt cc] ls].
  run_paths; intros Hfail; try discriminate Hfail; repeat split.
Qed.

Lemma resume_failure_stops_run_witness :
  failed (resume_result server_resume_500 state_free_1) = true
  /\ fetched cover_letter_url (trace_of (run server_resume_500 state_free_1))
     = false
  /\ localStorage (state_of (run server_resume_500 state_free_1)) !! credits_key
     = Some "1".
Proof.
  split; [reflexivity|].
  destruct (resume_failure_stops_run server_resume_500 state_free_1 eq_refl)
    as (H1 & _ & H3).
  split; [exact H1|]. rewrite H3. reflexivity.
Defined.

(** C4, as the specification words it, fails: when the stored credits do
    not parse, a successful run does not lower them by one. *)
Lemma unparsable_credits_not_decremented :
  ~ charged_exactly_one server_ok state_unparsable.
Proof.
  intros H. destruct (H eq_refl) as [Hfree _].
  destruct Hfree as (n & Hn & _); [discriminate|].
  vm_compute in Hn. discriminate Hn.
Qed.

(** C4, amended. When both requests succeed and the stored credits parse
    as the integer [n] (an absent or empty entry counts as 1; [n] within
    the exact range of JavaScript numbers): on a plan other than premium
    the stored credits become [n - 1]; on the premium plan the store is
    unchanged; and, when the page has the credit-count element, its text
    becomes the infinity sign on the premium plan and the decimal form of
    [n - 1] otherwise. *)
Theorem success_charges_one_credit (net : Network) (s : State) (n : Z) :
  both_succeed net s = true ->
  stored_credits s = Num n ->
  Z.abs n <= max_exact ->
  (stored_plan s <> "premium" ->
   localStorage (state_of (run net s))
   = <[credits_key := to_string (Num (n - 1))]> (localStorage s)
   /\ stored_credits (state_of (run net s)) = Num (n - 1))
  /\ (stored_plan s = "premium" ->
      localStorage (state_of (run net s)) = localStorage s)
  /\ (forall old, credit_count (dom s) = Some old ->
      credit_count (dom (state_of (run net s)))
      = Some (if String.eqb (stored_plan s) "premium" then infinity_sign
              else to_string (Num (n - 1)))).
Proof.
  intros Hboth Hn _. split; [|split].
  - intros Hp. destruct (charged_run net s Hboth Hp) as [Hls _].
    rewrite Hn in Hls. split; [exact Hls|].
    unfold stored_credits. rewrite Hls. apply credits_of_insert.
  - intros Hp. now apply store_unchanged; right.
  - intros old Hold.
    destruct (success_display net s old Hboth Hold) as [_ ->].
    now rewrite Hn.
Qed.

Lemma success_charges_one_credit_witness :
  both_succeed server_ok state_free_1 = true
  /\ stored_credits state_free_1 = Num 1
  /\ Z.abs 1 <= max_exact
  /\ localStorage (state_of (run server_ok state_free_1)) !! credits_key
     = Some "0"
  /\ credit_count (dom (state_of (run server_ok state_free_1))) = Some "0".
Proof.
  assert (Hsafe : Z.abs 1 <= max_exact) by (unfold max_exact; lia).
  split; [reflexivity|]. split; [reflexivity|]. split; [exact Hsafe|].
  destruct (success_charges_one_credit server_ok state_free_1 1 eq_refl eq_refl
              Hsafe) as (Hfree & _ & Hshow).
  split.
  - destruct Hfree as [-> _]; [discriminate | reflexivity].
  - rewrite (Hshow "1" eq_refl). reflexivity.
Defined.

(** C5, as the specification words it, fails: credits that do not parse
    are neither positive nor premium, and the gate admits them. *)
Lemma gate_admits_unparsable_credits : ~ gate_rule server_ok state_unparsable.
Proof.
  intros [H _].
  assert (Ha : admitted server_ok state_unparsable).
  { intros Hx. vm_compute in Hx. discriminate Hx. }
  destruct (H Ha) as [Hp | Hc]; vm_compute in Hp || vm_compute in Hc;
    discriminate.
Qed.

(** C5, amended. The gate admits a submission iff the plan is premium
    (whatever the credits), or the credits are positive, or the stored
    credits do not parse as a number; with the plan free and the credits
    0 the handler leaves by the credit-gate return and sends no
    request. *)
Theorem credit_gate_rule (net : Network) (s : State) :
  (admitted net s
   <-> stored_plan s = "premium" \/ gt0 (stored_credits s) = true
       \/ stored_credits s = NaN)
  /\ (stored_plan s = "free" -> stored_credits s = Num 0 ->
      exit_of (run net s) = Val ExitCreditGate
      /\ requests (trace_of (run net s)) = []).
Proof.
  split.
  - rewrite <- gate_blocks_false. unfold admitted. rewrite exit_credit_gate.
    destruct (gate_blocks _ _); split; congruence.
  - intros Hp Hc.
    assert (Hg : gate_blocks (stored_plan s) (stored_credits s) = true)
      by (rewrite Hp, Hc; reflexivity).
    split; [now apply exit_credit_gate | now apply gate_sends_nothing].
Qed.

Lemma credit_gate_rule_witness :
  stored_plan state_no_industry_0 = "free"
  /\ stored_credits state_no_industry_0 = Num 0
  /\ exit_of (run server_ok state_no_industry_0) = Val ExitCreditGate
  /\ requests (trace_of (run server_ok state_no_industry_0)) = [].
Proof.
  split; [reflexivity|]. split; [reflexivity|].
  destruct (credit_gate_rule server_ok state_no_industry_0) as [_ H].
  exact (H eq_refl eq_refl).
Defined.

(** C6, as the specification words it, fails: the message shown for a
    missing industry names no field. *)
Lemma validation_message_names_no_field :
  ~ names_a_missing_field server_ok state_no_industry_1.
Proof.
  intros H. destruct (H eq_refl) as (key & t & Hin & _ & Ht & Hn).
  vm_compute in Ht. injection Ht as <-.
  simpl in Hin. destruct Hin as [<-|[<-|[<-|[<-|[]]]]];
    vm_compute in Hn; discriminate Hn.
Qed.

(** C6, amended. When validation rejects a submission, some required
    field is empty, and what the user is shown is one fixed error toast,
    "Please fill out all required fields.", whichever and however many
    fields are missing; that message names none of the required
    fields. *)
Theorem validation_message_generic (net : Network) (s : State) :
  exit_of (run net s) = Val ExitValidation ->
  some_required_empty (formData (dom s))
  /\ qh_toast (dom (state_of (run net s)))
     = Some (mkToast required_message "#ef4444")
  /\ toasts (trace_of (run net s)) = [(required_message, "error")]
  /\ forall key, In key requiredFields ->
                 names_field required_message key = false.
Proof.
  intros Hexit.
  destruct (exit_validation net s Hexit) as ((k & Hk) & Htoast & Htrace).
  repeat split; try assumption.
  - eapply first_missing_some; eassumption.
  - intros key [<-|[<-|[<-|[<-|[]]]]]; reflexivity.
Qed.

Lemma validation_message_generic_witness :
  exit_of (run server_ok state_no_industry_1) = Val ExitValidation
  /\ toasts (trace_of (run server_ok state_no_industry_1))
     = [(required_message, "error")].
Proof.
  split; [reflexivity|].
  destruct (validation_message_generic server_ok state_no_industry_1 eq_refl)
    as (_ & _ & Ht & _).
  exact Ht.
Defined.

(** C7, as the specification words it, fails: a plan that is neither
    free nor premium is charged as well. *)
Lemma non_premium_plan_is_charged :
  ~ charged_only_when_free server_ok state_gold_2.
Proof.
  intros H. destruct (H 2 eq_refl ltac:(lia)) as [[Hsame | (Hfree & _)] _].
  - apply (f_equal (fun m : gmap string string => m !! credits_key)) in Hsame.
    vm_compute in Hsame. discriminate Hsame.
  - vm_compute in Hfree. discriminate Hfree.
Qed.

(** C7, amended. Start from a store whose credits are an integer
    [n0 >= 0] (within the exact range of JavaScript numbers) and run the
    handler any number of times, on any pages and against any servers.
    The credits stay an integer between 0 and [n0].
    Each further run either leaves the store alone, or the plan is not
    premium (free or any other name), the balance [n] was at least 1,
    both requests succeeded, and the one write of the run, made after
    the two downloads, replaces the credits by [n - 1]. *)
Theorem credits_invariant (ls0 : gmap string string) (n0 : Z) :
  credits_of ls0 = Num n0 -> 0 <= n0 <= max_exact ->
  forall ls, reachable ls0 ls ->
  exists n,
    credits_of ls = Num n /\ 0 <= n <= n0
    /\ forall net d,
         (localStorage (state_of (run net (mkState d ls))) = ls
          /\ storage_writes (trace_of (run net (mkState d ls))) = [])
         \/ (plan_of ls <> "premium"
             /\ 1 <= n
             /\ both_succeed net (mkState d ls) = true
             /\ credits_of (localStorage (state_of (run net (mkState d ls))))
                = Num (n - 1)
             /\ localStorage (state_of (run net (mkState d ls)))
                = <[credits_key := to_string (Num (n - 1))]> ls
             /\ exists b1 b2 pre post,
                  trace_of (run net (mkState d ls))
                  = (pre ++ EvSetItem credits_key (to_string (Num (n - 1)))
                         :: post)%list
                  /\ downloads pre
                     = [(b1, resume_filename); (b2, cover_letter_filename)]
                  /\ storage_writes pre = []
                  /\ storage_writes post = []).
Proof.
  intros H0 [Hpos _] ls Hreach.
  assert (Hinv : exists n, credits_of ls = Num n /\ 0 <= n <= n0).
  { induction Hreach as [|net d ls Hreach (n & Hn & Hle)].
    - exists n0. split; [assumption | lia].
    - destruct (run_step_credits net d ls n Hn)
        as [[-> _] | (_ & H1 & _ & Hnew & _)].
      + exists n. split; [assumption | lia].
      + exists (n - 1). split; [assumption | lia]. }
  destruct Hinv as (n & Hn & Hle).
  exists n. repeat split; try assumption; try lia.
  intros net d. now apply run_step_credits.
Qed.

Lemma credits_invariant_witness :
  credits_of (localStorage state_free_1) = Num 1
  /\ 0 <= 1 <= max_exact
  /\ exists n,
       credits_of (localStorage (state_of (run server_ok state_free_1))) = Num n
       /\ 0 <= n <= 1.
Proof.
  assert (Hsafe : 0 <= 1 <= max_exact) by (unfold max_exact; lia).
  split; [reflexivity|]. split; [exact Hsafe|].
  destruct (credits_invariant (localStorage state_free_1) 1 eq_refl
              Hsafe _
              (reach_run _ server_ok (dom state_free_1) _ (reach_start _)))
    as (n & Hn & Hle & _).
  exists n. split; [exact Hn | exact Hle].
Defined.

(** C8. Collecting the form data twice in a row from one state gives the
    same record twice, changes nothing and touches neither the store nor
    the network; the handler itself never changes what the collector
    reads, and every request it sends carries the record collected from
    the initial page. *)
Theorem gather_form_data_idempotent (s : State) :
  (r1 <- gather_form_data ;; r2 <- gather_form_data ;; ret (r1, r2)) s
  = (Val (formData (dom s), formData (dom s)), s, [])
  /\ forall net,
       formData (dom (state_of (run net s))) = formData (dom s)
       /\ Forall (fun r => req_body r = formData (dom s))
                 (requests (trace_of (run net s))).
Proof.
  split; [reflexivity|].
  intros net. destruct s as [[c sk st btn tst pc pf pt cc] ls].
  run_paths; split; try reflexivity; repeat constructor.
Qed.

(** C9. The gate refuses only when the parsed credits are a number at
    most 0. So when the stored credits do not parse, the submission is
    admitted, and after a run in which both requests succeed on a plan
    other than premium the one write to the store sets the credits to the
    text NaN. *)
Theorem unparsable_credits_pass_gate (net : Network) (s : State) :
  (exit_of (run net s) = Val ExitCreditGate ->
   exists n, stored_credits s = Num n /\ n <= 0)
  /\ (stored_credits s = NaN ->
      admitted net s
      /\ (stored_plan s <> "premium" -> both_succeed net s = true ->
          localStorage (state_of (run net s))
          = <[credits_key := "NaN"]> (localStorage s)
          /\ storage_writes (trace_of (run net s)) = [(credits_key, "NaN")])).
Proof.
  split.
  - rewrite exit_credit_gate. unfold gate_blocks, le0.
    destruct (stored_credits s) as [|n].
    + rewrite andb_false_r. discriminate.
    + intros [_ Hn]%andb_prop. exists n. split; [reflexivity | lia].
  - intros Hnan. split.
    + unfold admitted. rewrite exit_credit_gate, Hnan.
      unfold gate_blocks. simpl. rewrite andb_false_r. discriminate.
    + intros Hplan Hboth.
      destruct (charged_run net s Hboth Hplan)
        as (Hls & b1 & b2 & pre & post & Ht & _ & Hpre & Hpost).
      rewrite Hnan in Hls, Ht. split; [exact Hls|].
      rewrite Ht. unfold storage_writes in *.
      rewrite flat_map_app. simpl. now rewrite Hpre, Hpost.
Qed.

Lemma unparsable_credits_pass_gate_witness :
  stored_credits state_unparsable = NaN
  /\ stored_plan state_unparsable <> "premium"
  /\ both_succeed server_ok state_unparsable = true
  /\ admitted server_ok state_unparsable
  /\ localStorage (state_of (run server_ok state_unparsable)) !! credits_key
     = Some "NaN".
Proof.
  split; [reflexivity|]. split; [discriminate|]. split; [reflexivity|].
  destruct (unparsable_credits_pass_gate server_ok state_unparsable)
    as [_ H].
  destruct (H eq_refl) as [Ha Hw]. split; [exact Ha|].
  destruct (Hw ltac:(discriminate) eq_refl) as [-> _]. reflexivity.
Defined.



(** ** Further properties of [script.js] *)

(** *** Trimming *)

Lemma append_cons (c : ascii) (s w : string) :
  String c s +:+ w = String c (s +:+ w).
Proof. reflexivity. Qed.

Lemma trimStart_length (s : string) :
  (String.length (trimStart s) <= String.length s)%nat.
Proof.
  remember (String.length s) as n eqn:Hn. revert s Hn.
  induction n as [n IH] using lt_wf_ind. intros s Hn. subst n.
  destruct s as [|c1 s1]; [simpl; lia|].
  simpl trimStart. destruct (ws1 c1).
  - specialize (IH (String.length s1) ltac:(simpl; lia) s1 eq_refl). simpl. lia.
  - destruct s1 as [|c2 s2]; [simpl; lia|].
    destruct (ws2 c1 c2).
    + specialize (IH (String.length s2) ltac:(simpl; lia) s2 eq_refl). simpl. lia.
    + destruct s2 as [|c3 s3]; [simpl; lia|].
      destruct (ws3 c1 c2 c3); [|simpl; lia].
      specialize (IH (String.length s3) ltac:(simpl; lia) s3 eq_refl). simpl. lia.
Qed.

Lemma trimStart_idem (s : string) : trimStart (trimStart s) = trimStart s.
Proof.
  remember (String.length s) as n eqn:Hn. revert s Hn.
  induction n as [n IH] using lt_wf_ind. intros s Hn.
  destruct s as [|c1 s1]; [reflexivity|].
  simpl. destruct (ws1 c1) eqn:E1.
  - apply (IH (String.length s1)); [simpl in Hn; lia | reflexivity].
  - destruct s1 as [|c2 s2].
    + simpl. now rewrite E1.
    + destruct (ws2 c1 c2) eqn:E2.
      * apply (IH (String.length s2)); [simpl in Hn; lia | reflexivity].
      * destruct s2 as [|c3 s3].
        -- simpl. now rewrite E1, E2.
        -- destruct (ws3 c1 c2 c3) eqn:E3.
           ++ apply (IH (String.length s3)); [simpl in Hn; lia | reflexivity].
           ++ simpl. now rewrite E1, E2, E3.
Qed.

Lemma trimStart_suffix (s : string) : exists u, s = u +:+ trimStart s.
Proof.
  remember (String.length s) as n eqn:Hn. revert s Hn.
  induction n as [n IH] using lt_wf_ind. intros s Hn. subst n.
  destruct s as [|c1 s1]; [exists ""; reflexivity|].
  simpl trimStart. destruct (ws1 c1).
  - destruct (IH (String.length s1) ltac:(simpl; lia) s1 eq_refl) as [u Hu].
    exists (String c1 u). rewrite append_cons. now f_equal.
  - destruct s1 as [|c2 s2]; [exists ""; reflexivity|].
    destruct (ws2 c1 c2).
    + destruct (IH (String.length s2) ltac:(simpl; lia) s2 eq_refl) as [u Hu].
      exists (String c1 (String c2 u)). rewrite !append_cons. now do 2 f_equal.
    + destruct s2 as [|c3 s3]; [exists ""; reflexivity|].
      destruct (ws3 c1 c2 c3); [|exists ""; reflexivity].
      destruct (IH (String.length s3) ltac:(simpl; lia) s3 eq_refl) as [u Hu].
      exists (String c1 (String c2 (String c3 u))).
      rewrite !append_cons. now do 3 f_equal.
Qed.

Lemma trimStart_app_blank (u w : string) :
  blank u = true -> trimStart (u +:+ w) = trimStart w.
Proof.
  unfold blank.
  remember (String.length u) as n eqn:Hn. revert u Hn.
  induction n as [n IH] using lt_wf_ind. intros u Hn Hu.
  destruct u as [|c1 u1]; [reflexivity|].
  rewrite append_cons. simpl in Hu |- *. destruct (ws1 c1).
  - apply (IH (String.length u1)); [simpl in Hn; lia | reflexivity | exact Hu].
  - destruct u1 as [|c2 u2]; [discriminate|].
    rewrite append_cons. destruct (ws2 c1 c2).
    + apply (IH (String.length u2)); [simpl in Hn; lia | reflexivity | exact Hu].
    + destruct u2 as [|c3 u3]; [discriminate|].
      rewrite append_cons. destruct (ws3 c1 c2 c3); [|discriminate].
      apply (IH (String.length u3)); [simpl in Hn; lia | reflexivity | exact Hu].
Qed.

Lemma trimStart_prefix_fixed (p w : string) :
  trimStart (p +:+ w) = p +:+ w -> trimStart p = p.
Proof.
  intros H. destruct p as [|c1 p1]; [reflexivity|].
  rewrite append_cons in H. simpl trimStart in H |- *.
  destruct (ws1 c1).
  - exfalso. pose proof (trimStart_length (p1 +:+ w)) as L.
    rewrite H in L. simpl in L. lia.
  - destruct p1 as [|c2 p2]; [reflexivity|].
    rewrite append_cons in H. destruct (ws2 c1 c2).
    + exfalso. pose proof (trimStart_length (p2 +:+ w)) as L.
      rewrite H in L. simpl in L. lia.
    + destruct p2 as [|c3 p3]; [reflexivity|].
      rewrite append_cons in H. destruct (ws3 c1 c2 c3); [|reflexivity].
      exfalso. pose proof (trimStart_length (p3 +:+ w)) as L.
      rewrite H in L. simpl in L. lia.
Qed.

Lemma trimEnd_split (s : string) :
  exists w, s = trimEnd s +:+ w /\ blank w = true.
Proof.
  induction s as [|c s IH]; [exists ""; split; reflexivity|].
  simpl trimEnd. destruct (blank (String c s)) eqn:E.
  - exists (String c s). split; [reflexivity | exact E].
  - destruct IH as (w & Hw & Hb). exists w. split; [|exact Hb].
    rewrite append_cons. now f_equal.
Qed.

Lemma trimEnd_idem (s : string) : trimEnd (trimEnd s) = trimEnd s.
Proof.
  induction s as [|c s IH]; [reflexivity|].
  simpl trimEnd at 2 3. destruct (blank (String c s)) eqn:E; [reflexivity|].
  simpl trimEnd. rewrite IH.
  destruct (blank (String c (trimEnd s))) eqn:E'; [|reflexivity].
  exfalso. destruct (trimEnd_split s) as (w & Hw & Hb).
  pose proof (trimStart_app_blank (String c (trimEnd s)) w E') as H.
  rewrite append_cons in H. rewrite <- Hw in H.
  unfold blank in E, Hb. rewrite H in E.
  destruct (trimStart w); discriminate.
Qed.

Lemma trim_idem (s : string) : trim (trim s) = trim s.
Proof.
  unfold trim.
  destruct (trimEnd_split (trimStart s)) as (w & Hw & _).
  assert (Hfix : trimStart (trimEnd (trimStart s)) = trimEnd (trimStart s)).
  { apply (trimStart_prefix_fixed _ w). rewrite <- Hw. apply trimStart_idem. }
  rewrite Hfix. apply trimEnd_idem.
Qed.

Lemma trimEnd_empty_iff (s : string) : trimEnd s = "" <-> blank s = true.
Proof.
  destruct s as [|c s']; simpl; [tauto|].
  destruct (blank (String c s')); split; congruence.
Qed.

Lemma trim_empty_iff (s : string) : trim s = "" <-> blank s = true.
Proof.
  unfold trim. rewrite trimEnd_empty_iff. unfold blank.
  now rewrite trimStart_idem.
Qed.

(** *** The handler: what every run does *)

(** X1. Whatever the exit, the submit button ends enabled, with the
    markup it had when the handler started. *)
Theorem submit_button_always_restored (net : Network) (s : State) :
  submit_btn (dom (state_of (run net s)))
  = mkButton false (innerHTML (submit_btn (dom s))).
Proof.
  destruct s as [[c sk st [dis html] tst pc pf pt cc] ls].
  run_paths; reflexivity.
Qed.

(** X2. A run sends no request (the gate refuses or a required field is
    empty), or the resume request alone (it did not succeed), or the
    resume request and then the cover-letter request; both are POSTs of
    JSON that carry the record collected from the page. *)
Theorem requests_resume_then_cover_letter (net : Network) (s : State) :
  let resume :=
    mkRequest resume_url "POST" "application/json" (formData (dom s)) in
  let cover :=
    mkRequest cover_letter_url "POST" "application/json" (formData (dom s)) in
  (requests (trace_of (run net s)) = []
   /\ (gate_blocks (stored_plan s) (stored_credits s) = true
       \/ some_required_empty (formData (dom s))))
  \/ (requests (trace_of (run net s)) = [resume]
      /\ succeeded (resume_result net s) = false)
  \/ (requests (trace_of (run net s)) = [resume; cover]
      /\ succeeded (resume_result net s) = true).
Proof.
  destruct s as [[c sk st btn tst pc pf pt cc] ls].
  run_paths.
  all: try (right; left; split; reflexivity).
  all: try (right; right; split; reflexivity).
  - left. split; [reflexivity | now left].
  - left. split; [reflexivity|]. right.
    eapply first_missing_some. eassumption.
Qed.

(** X3. Every download of a run is the body of a successful answer: a
    run downloads nothing, or the resume alone (the cover-letter request
    did not succeed), or the resume and then the cover letter, under the
    file names QuickHire_Resume.pdf and QuickHire_Cover_Letter.pdf of
    lines 129 and 140. *)
Theorem downloads_follow_responses (net : Network) (s : State) :
  downloads (trace_of (run net s)) = []
  \/ exists b1,
       resume_result net s = ok_response b1
       /\ ((downloads (trace_of (run net s)) = [(b1, resume_filename)]
            /\ succeeded (cover_letter_result net s) = false)
           \/ exists b2,
                cover_letter_result net s = ok_response b2
                /\ downloads (trace_of (run net s))
                   = [(b1, resume_filename); (b2, cover_letter_filename)]).
Proof.
  destruct s as [[c sk st btn tst pc pf pt cc] ls].
  run_paths.
  all: try (left; reflexivity).
  all: right; eexists; split; [reflexivity|].
  all: try (left; split; reflexivity).
  all: right; eexists; split; reflexivity.
Qed.

(** X4. A run reads the credits and then the plan, once each, and writes
    at most once, the credits, after both reads; every other key of the
    store, the plan among them, keeps its value. *)
Theorem only_credits_key_written (net : Network) (s : State) :
  (forall k, k <> credits_key ->
             localStorage (state_of (run net s)) !! k = localStorage s !! k)
  /\ (storage_accesses (trace_of (run net s))
      = [EvGetItem credits_key; EvGetItem plan_key]
      \/ exists v,
           storage_accesses (trace_of (run net s))
           = [EvGetItem credits_key; EvGetItem plan_key;
              EvSetItem credits_key v]).
Proof.
  destruct s as [[c sk st btn tst pc pf pt cc] ls].
  run_paths; (split; [intros k Hk; try reflexivity;
                      apply lookup_insert_ne; congruence |]);
    (left; reflexivity) || (right; eexists; reflexivity).
Qed.

(** X5. When the handler leaves by the [catch] block with the error [e]:
    the one toast of the run is the error toast with the message of [e]
    (its name when the message is empty), the live region says "Error
    occurred.", [e] went to the console, the progress container is hidden
    when there is one, and [e] was raised by the resume request, by the
    cover-letter request after a successful resume request, or by the
    missing credit-count element after two successful requests. *)
Theorem caught_error_is_reported (net : Network) (s : State) (e : JsError) :
  exit_of (run net s) = Val (ExitCaught e) ->
  toasts (trace_of (run net s)) = [("❌ Error: " +:+ error_text e, "error")]
  /\ qh_toast (dom (state_of (run net s)))
     = Some (mkToast ("❌ Error: " +:+ error_text e) "#ef4444")
  /\ qh_status (dom (state_of (run net s))) = Some "Error occurred."
  /\ In (EvConsoleError e) (trace_of (run net s))
  /\ progress_container (dom (state_of (run net s)))
     = option_map (fun _ => "none") (progress_container (dom s))
  /\ (thrown_by (resume_result net s) "Failed to generate resume." e
      \/ (succeeded (resume_result net s) = true
          /\ thrown_by (cover_letter_result net s)
               "Failed to generate cover letter." e)
      \/ (both_succeed net s = true
          /\ credit_count (dom s) = None /\ e = null_textContent)).
Proof.
  destruct s as [[c sk st btn tst pc pf pt cc] ls].
  run_paths; intros Hexit; try discriminate Hexit.
  all: injection Hexit as <-.
  all: repeat (split; [first [reflexivity | simpl; tauto]|]).
  all: first [ left; reflexivity
             | right; left; split; reflexivity
             | right; right; repeat split; reflexivity ].
Qed.

Lemma caught_error_is_reported_witness :
  exit_of (run server_resume_500 state_free_1)
  = Val (ExitCaught (mkError "Error" "Failed to generate resume."))
  /\ toasts (trace_of (run server_resume_500 state_free_1))
     = [("❌ Error: Failed to generate resume.", "error")].
Proof.
  split; [reflexivity|].
  destruct (caught_error_is_reported server_resume_500 state_free_1
              (mkError "Error" "Failed to generate resume.") eq_refl)
    as (Ht & _).
  exact Ht.
Defined.

(** X6. Every run shows exactly one toast: the success toast when the
    handler reaches the end of the [try] block, an error toast at every
    other exit. *)
Theorem exactly_one_toast (net : Network) (s : State) :
  exists m ty,
    toasts (trace_of (run net s)) = [(m, ty)]
    /\ qh_toast (dom (state_of (run net s))) = Some (mkToast m (toast_color ty))
    /\ ((ty = "success" /\ exit_of (run net s) = Val ExitDone)
        \/ (ty = "error" /\ exit_of (run net s) <> Val ExitDone)).
Proof.
  destruct s as [[c sk st btn tst pc pf pt cc] ls].
  run_paths; do 2 eexists; (split; [reflexivity|]); (split; [reflexivity|]);
    (left; split; reflexivity) || (right; split; [reflexivity | discriminate]).
Qed.

(** The state and the trace of a refused submission. *)
Lemma refusal_state (net : Network) (s : State) :
  exit_of (run net s) = Val ExitCreditGate
  \/ exit_of (run net s) = Val ExitValidation ->
  state_of (run net s)
  = mkState
      (set_button (mkButton false (innerHTML (submit_btn (dom s))))
         (set_toast (mkToast (refusal_message s) "#ef4444")
            (set_status "Generating documents..." (dom s))))
      (localStorage s)
  /\ trace_of (run net s)
     = [EvPreventDefault; EvStatus "Generating documents...";
        EvGetItem credits_key; EvGetItem plan_key;
        EvToast (refusal_message s) "error"].
Proof.
  unfold refusal_message.
  destruct s as [[c sk st btn tst pc pf pt cc] ls].
  run_paths; intros [H|H]; try discriminate H; split; reflexivity.
Qed.



(** X8. The handler reaches the end of the [try] block exactly when both
    requests are sent and succeed and the page has the credit-count
    element. *)
Theorem done_iff_both_succeed_and_counter (net : Network) (s : State) :
  exit_of (run net s) = Val ExitDone
  <-> both_succeed net s = true /\ credit_count (dom s) <> None.
Proof.
  split.
  - apply exit_done_inv.
  - intros [Hboth Hcc]. destruct (credit_count (dom s)) as [old|] eqn:E.
    + now destruct (success_display net s old Hboth E).
    + contradiction.
Qed.

(** X9. A run that reaches the end of the [try] block announces
    "Generating documents..." and then "Generation complete.", and, when
    the page has the three progress elements, leaves the bar shown at
    100% under "Done!"; otherwise it leaves the progress elements as they
    were. *)
Theorem done_run_completes_ui (net : Network) (s : State) :
  exit_of (run net s) = Val ExitDone ->
  announcements (trace_of (run net s))
  = ["Generating documents..."; "Generation complete."]
  /\ qh_status (dom (state_of (run net s))) = Some "Generation complete."
  /\ progress_container (dom (state_of (run net s)))
     = (if progress_present (dom s) then Some "block"
        else progress_container (dom s))
  /\ progress_fill (dom (state_of (run net s)))
     = (if progress_present (dom s) then Some "100%" else progress_fill (dom s))
  /\ progress_text (dom (state_of (run net s)))
     = (if progress_present (dom s) then Some "Done!" else progress_text (dom s)).
Proof.
  destruct s as [[c sk st btn tst pc pf pt cc] ls].
  run_paths; intros Hexit; try discriminate Hexit; repeat split; reflexivity.
Qed.

Lemma done_run_completes_ui_witness :
  exit_of (run server_ok state_free_1) = Val ExitDone
  /\ progress_fill (dom (state_of (run server_ok state_free_1))) = Some "100%".
Proof.
  split; [reflexivity|].
  destruct (done_run_completes_ui server_ok state_free_1 eq_refl)
    as (_ & _ & _ & Hf & _).
  exact Hf.
Defined.

Lemma getVal_empty_iff (d : Dom) (id : string) :
  getVal d id = "" <-> ~ filled d id.
Proof.
  unfold getVal, filled. rewrite trim_empty_iff.
  destruct (controls d !! id) as [v|]; simpl.
  - unfold or_else. destruct v as [|a v'].
    + split; [|reflexivity]. intros _ (v & [= <-] & Hv). discriminate Hv.
    + split.
      * intros Hb (v & [= <-] & Hv). congruence.
      * intros Hn. destruct (blank (String a v')) eqn:E; [reflexivity|].
        exfalso. apply Hn. eauto.
  - split; [|reflexivity]. intros _ (v & Hv & _). discriminate Hv.
Qed.

Lemma filled_dec (d : Dom) (id : string) : filled d id \/ ~ filled d id.
Proof.
  unfold filled. destruct (controls d !! id) as [v|].
  - destruct (blank v) eqn:E.
    + right. intros (v' & [= <-] & Hv). congruence.
    + left. eauto.
  - right. intros (v' & Hv & _). discriminate Hv.
Qed.

(** X10. The resume request is sent exactly when the gate admits the
    submission and each of the four controls currentPosition,
    yearsExperience, targetPosition and industry exists and holds
    something other than white space. *)
Theorem request_sent_iff_admitted_and_filled (net : Network) (s : State) :
  fetched resume_url (trace_of (run net s)) = true
  <-> gate_blocks (stored_plan s) (stored_credits s) = false
      /\ Forall (filled (dom s)) required_controls.
Proof.
  assert (Hv : first_missing requiredFields (formData (dom s)) = None
               <-> Forall (filled (dom s)) required_controls).
  { rewrite first_missing_none. unfold some_required_empty, required_controls.
    unfold formData; simpl.
    rewrite !getVal_empty_iff.
    split.
    - intros Hn. repeat constructor.
      + destruct (filled_dec (dom s) "currentPosition"); tauto.
      + destruct (filled_dec (dom s) "yearsExperience"); tauto.
      + destruct (filled_dec (dom s) "targetPosition"); tauto.
      + destruct (filled_dec (dom s) "industry"); tauto.
    - intros HF.
      inversion HF as [|? ? H1 HF1]; subst.
      inversion HF1 as [|? ? H2 HF2]; subst.
      inversion HF2 as [|? ? H3 HF3]; subst.
      inversion HF3 as [|? ? H4 _]; subst. tauto. }
  rewrite <- Hv. clear Hv.
  destruct s as [[c sk st btn tst pc pf pt cc] ls].
  run_paths; split; try (intros H; discriminate H);
    try (intros [H1 H2]; discriminate); try (intros _; split; reflexivity);
    try reflexivity.
Qed.

(** *** Successive runs *)

(** X11. On a plan other than premium, starting from an integer balance
    [n >= 0] (within the exact range of JavaScript numbers), any list of
    runs contains at most [n] runs in which both requests succeed, and
    the balance left is [n] minus the number of such runs. *)
Theorem free_plan_budget (runs : list (Network * Dom))
    (ls : gmap string string) (n : Z) :
  credits_of ls = Num n -> 0 <= n <= max_exact ->
  plan_of ls <> "premium" ->
  0 <= generations runs ls <= n
  /\ credits_of (store_after runs ls) = Num (n - generations runs ls).
Proof.
  revert ls n. induction runs as [|[net d] rest IH]; intros ls n Hn Hrange Hplan.
  - simpl. split; [lia|]. now rewrite Z.sub_0_r.
  - simpl. set (s := mkState d ls).
    destruct (both_succeed net s) eqn:Hboth.
    + destruct (both_succeed_inv net s Hboth) as (Hg & _).
      destruct (charged_run net s Hboth Hplan) as (Hls & _).
      change (stored_credits s) with (credits_of ls) in *.
      change (stored_plan s) with (plan_of ls) in *.
      change (localStorage s) with ls in *.
      rewrite Hn in *. simpl decrement in *.
      assert (H1 : 1 <= n).
      { apply gate_blocks_false in Hg.
        destruct Hg as [Hg|[Hg|Hg]]; [contradiction | | discriminate].
        simpl in Hg. apply Z.ltb_lt in Hg. lia. }
      rewrite Hls.
      destruct (IH (<[credits_key := to_string (Num (n - 1))]> ls) (n - 1))
        as [Hc Hs].
      * apply credits_of_insert.
      * lia.
      * now rewrite plan_of_insert_credits.
      * split; [lia|]. rewrite Hs. f_equal. lia.
    + destruct (store_unchanged net s) as [Hls _]; [now left|].
      change (localStorage s) with ls in Hls. rewrite Hls.
      destruct (IH ls n Hn Hrange Hplan) as [Hc Hs].
      split; [lia|]. rewrite Hs. f_equal.
Qed.

Lemma free_plan_budget_witness :
  credits_of (localStorage state_free_1) = Num 1
  /\ 0 <= 1 <= max_exact
  /\ plan_of (localStorage state_free_1) <> "premium"
  /\ credits_of
       (store_after [(server_ok, dom state_free_1); (server_ok, dom state_free_1)]
          (localStorage state_free_1))
     = Num (1 - generations
                  [(server_ok, dom state_free_1); (server_ok, dom state_free_1)]
                  (localStorage state_free_1)).
Proof.
  assert (Hsafe : 0 <= 1 <= max_exact) by (unfold max_exact; lia).
  assert (Hplan : plan_of (localStorage state_free_1) <> "premium")
    by discriminate.
  split; [reflexivity|]. split; [exact Hsafe|]. split; [exact Hplan|].
  destruct (free_plan_budget
              [(server_ok, dom state_free_1); (server_ok, dom state_free_1)]
              (localStorage state_free_1) 1 eq_refl Hsafe Hplan) as [_ H].
  exact H.
Defined.

(** X12. On the premium plan no list of runs ever changes the store. *)
Theorem premium_store_constant (runs : list (Network * Dom))
    (ls : gmap string string) :
  plan_of ls = "premium" -> store_after runs ls = ls.
Proof.
  intros Hp. induction runs as [|[net d] rest IH]; [reflexivity|].
  simpl. destruct (store_unchanged net (mkState d ls)) as [-> _]; [now right|].
  exact IH.
Qed.

Lemma premium_store_constant_witness :
  plan_of (localStorage state_premium_0) = "premium"
  /\ store_after [(server_ok, dom state_premium_0)] (localStorage state_premium_0)
     = localStorage state_premium_0.
Proof.
  split; [reflexivity|].
  exact (premium_store_constant [(server_ok, dom state_premium_0)]
           (localStorage state_premium_0) eq_refl).
Defined.

Lemma credits_of_insert_any (ls : gmap string string) (x : jsnum) :
  credits_of (<[credits_key := to_string x]> ls) = x.
Proof.
  destruct x as [|n]; [|apply credits_of_insert].
  unfold credits_of. now rewrite lookup_insert_eq.
Qed.

(** X13. What line 145 writes is what line 73 reads back: storing the
    text of a number (NaN, or an integer within the exact range) under
    the credits key and reading the credits again gives that number. *)
Theorem stored_credits_round_trip (ls : gmap string string) (x : jsnum) :
  representable x ->
  credits_of (<[credits_key := to_string x]> ls) = x.
Proof. intros _. apply credits_of_insert_any. Qed.

Lemma stored_credits_round_trip_witness :
  representable (Num (-3))
  /\ credits_of (<[credits_key := to_string (Num (-3))]> ∅) = Num (-3).
Proof.
  assert (H : representable (Num (-3))) by (unfold representable, max_exact; lia).
  split; [exact H|].
  exact (stored_credits_round_trip ∅ (Num (-3)) H).
Defined.

(** *** [updatePlanUI] *)

(** X14. The counter that the handler writes on success is the one
    [updatePlanUI] computes from the store: after a run that reaches the
    end of the [try] block, from stored credits within the exact range,
    [updatePlanUI] leaves the credit counter as the handler set it. *)
Theorem updatePlanUI_agrees_with_handler (capitalized : string -> string)
    (net : Network) (s : State) (label : option string) :
  representable (stored_credits s) ->
  exit_of (run net s) = Val ExitDone ->
  credit_count
    (dom (snd (fst (updatePlanUI capitalized label (state_of (run net s))))))
  = credit_count (dom (state_of (run net s))).
Proof.
  intros _ Hdone.
  destruct (exit_done_inv net s Hdone) as [Hboth Hcc].
  destruct (credit_count (dom s)) as [old|] eqn:Eold; [|contradiction].
  destruct (success_display net s old Hboth Eold) as [_ Hshow].
  assert (Hstore :
    plan_of (localStorage (state_of (run net s))) = stored_plan s
    /\ (String.eqb (stored_plan s) "premium" = false ->
        credits_of (localStorage (state_of (run net s)))
        = decrement (stored_credits s))).
  { destruct (String.eqb_spec (stored_plan s) "premium") as [Hp|Hp].
    - destruct (store_unchanged net s) as [-> _]; [now right|].
      split; [reflexivity | discriminate].
    - destruct (charged_run net s Hboth Hp) as [-> _].
      split; [apply plan_of_insert_credits|].
      intros _. apply credits_of_insert_any. }
  destruct Hstore as [Hplan Hcred].
  destruct (state_of (run net s)) as [d' ls'] eqn:Es.
  simpl in Hshow, Hplan, Hcred.
  unfold updatePlanUI, bind, getItem, get_dom, modify_dom, ret. simpl.
  rewrite Hshow. simpl.
  fold (plan_of ls'). fold (credits_of ls'). rewrite Hplan.
  destruct (String.eqb (stored_plan s) "premium"); [reflexivity|].
  now rewrite Hcred.
Qed.

Lemma updatePlanUI_agrees_with_handler_witness :
  representable (stored_credits state_free_1)
  /\ exit_of (run server_ok state_free_1) = Val ExitDone
  /\ credit_count
       (dom (snd (fst (updatePlanUI (fun p => p) (Some "Free")
                         (state_of (run server_ok state_free_1))))))
     = Some "0".
Proof.
  assert (Hr : representable (stored_credits state_free_1)).
  { vm_compute. intros H. discriminate H. }
  split; [exact Hr|]. split; [reflexivity|].
  rewrite (updatePlanUI_agrees_with_handler (fun p => p) server_ok state_free_1
             (Some "Free") Hr eq_refl).
  reflexivity.
Defined.

(** *** Tabs *)

Lemma switchTab_unfold (tab : string) (ui : Tabs) :
  switchTab tab ui
  = switch_one tab
      (switch_one tab (switch_one tab ui "basic") "experience") "preferences".
Proof. reflexivity. Qed.

Lemma switchTab_display (tab : string) (ui : Tabs) (id : string) :
  tab_display (switchTab tab ui) !! id
  = if String.eqb id (content_id "basic")
    then (fun _ => if String.eqb "basic" tab then "" else "none")
           <$> tab_display ui !! id
    else if String.eqb id (content_id "experience")
    then (fun _ => if String.eqb "experience" tab then "" else "none")
           <$> tab_display ui !! id
    else if String.eqb id (content_id "preferences")
    then (fun _ => if String.eqb "preferences" tab then "" else "none")
           <$> tab_display ui !! id
    else tab_display ui !! id.
Proof.
  rewrite switchTab_unfold. unfold switch_one. cbn [tab_display].
  destruct (String.eqb_spec id (content_id "basic")) as [->|Hb];
  [|destruct (String.eqb_spec id (content_id "experience")) as [->|He];
   [|destruct (String.eqb_spec id (content_id "preferences")) as [->|Hp]]].
  all: repeat match goal with
       | |- context [match ?m !! ?k with Some _ => _ | None => _ end] =>
           destruct (m !! k) eqn:?
       end.
  all: simplify_map_eq; try reflexivity; try congruence.
Qed.

Lemma toggle_active_again (t : string) (a b : bool) (l : list TabButton) :
  toggle_active t b (toggle_active t a l) = toggle_active t b l.
Proof.
  induction l as [|x l IH]; [reflexivity|]. simpl.
  destruct (has_data_tab t x) eqn:E; simpl.
  - unfold has_data_tab in *. simpl. now rewrite E.
  - now rewrite E, IH.
Qed.

Lemma toggle_active_comm (t t' : string) (a b : bool) (l : list TabButton) :
  t <> t' ->
  toggle_active t a (toggle_active t' b l)
  = toggle_active t' b (toggle_active t a l).
Proof.
  intros Hne. induction l as [|x l IH]; [reflexivity|]. simpl.
  destruct (has_data_tab t' x) eqn:E'; destruct (has_data_tab t x) eqn:E; simpl.
  - exfalso. unfold has_data_tab in *. destruct (data_tab x); [|discriminate].
    apply String.eqb_eq in E, E'. congruence.
  - unfold has_data_tab in *. simpl. now rewrite E, E'.
  - unfold has_data_tab in *. simpl. now rewrite E, E'.
  - now rewrite E, E', IH.
Qed.

Lemma query_toggle_same (t : string) (on : bool) (l : list TabButton) :
  query_tab t (toggle_active t on l) = set_active on <$> query_tab t l.
Proof.
  unfold query_tab. induction l as [|x l IH]; [reflexivity|]. simpl.
  destruct (has_data_tab t x) eqn:E; simpl.
  - unfold has_data_tab in *. simpl. now rewrite E.
  - now rewrite E.
Qed.

Lemma query_toggle_other (t t' : string) (on : bool) (l : list TabButton) :
  t <> t' -> query_tab t (toggle_active t' on l) = query_tab t l.
Proof.
  intros Hne. unfold query_tab. induction l as [|x l IH]; [reflexivity|]. simpl.
  destruct (has_data_tab t' x) eqn:E'; simpl.
  - destruct (has_data_tab t x) eqn:E.
    + exfalso. unfold has_data_tab in *. destruct (data_tab x); [|discriminate].
      apply String.eqb_eq in E, E'. congruence.
    + unfold has_data_tab in *. simpl. now rewrite E.
  - destruct (has_data_tab t x); [reflexivity | exact IH].
Qed.

Lemma toggle_keeps_unnamed (t : string) (on : bool) (l : list TabButton)
    (i : nat) (b : TabButton) :
  l !! i = Some b -> has_data_tab t b = false ->
  toggle_active t on l !! i = Some b.
Proof.
  revert i. induction l as [|x l IH]; intros i Hi Hb; [discriminate|].
  simpl. destruct (has_data_tab t x) eqn:E.
  - destruct i as [|i]; simpl in *; [congruence | exact Hi].
  - destruct i as [|i]; simpl in *; [exact Hi | now apply IH].
Qed.

Lemma switchTab_buttons (tab : string) (ui : Tabs) :
  tab_buttons (switchTab tab ui)
  = toggle_active "preferences" (String.eqb "preferences" tab)
      (toggle_active "experience" (String.eqb "experience" tab)
         (toggle_active "basic" (String.eqb "basic" tab) (tab_buttons ui))).
Proof. reflexivity. Qed.

Lemma in_tab_names (t : string) :
  In t tab_names <-> t = "basic" \/ t = "experience" \/ t = "preferences".
Proof. unfold tab_names. simpl. intuition congruence. Qed.

Lemma switchTab_named (tab : string) (ui : Tabs) (t : string) :
  In t tab_names ->
  tab_display (switchTab tab ui) !! content_id t
  = (fun _ => if String.eqb t tab then "" else "none")
      <$> tab_display ui !! content_id t
  /\ query_tab t (tab_buttons (switchTab tab ui))
     = set_active (String.eqb t tab) <$> query_tab t (tab_buttons ui).
Proof.
  intros Ht. apply in_tab_names in Ht. split.
  - rewrite switchTab_display.
    destruct Ht as [-> | [-> | ->]]; reflexivity.
  - rewrite switchTab_buttons.
    destruct Ht as [-> | [-> | ->]].
    + rewrite !query_toggle_other by discriminate. apply query_toggle_same.
    + rewrite query_toggle_other by discriminate.
      rewrite query_toggle_same.
      now rewrite query_toggle_other by discriminate.
    + rewrite query_toggle_same.
      now rewrite !query_toggle_other by discriminate.
Qed.

(** X15. [switchTab(tab)], for each of the names basic, experience and
    preferences: the panel of that name, when the page has it, gets the
    display "" if the name is [tab] and "none" otherwise, and no panel is
    created; the first button with that [data-tab], when there is one, is
    active exactly if the name is [tab]. *)
Theorem switchTab_panels_and_buttons (tab : string) (ui : Tabs) (t : string) :
  In t tab_names ->
  tab_display (switchTab tab ui) !! content_id t
  = (fun _ => if String.eqb t tab then "" else "none")
      <$> tab_display ui !! content_id t
  /\ query_tab t (tab_buttons (switchTab tab ui))
     = set_active (String.eqb t tab) <$> query_tab t (tab_buttons ui).
Proof. apply switchTab_named. Qed.

Lemma switchTab_panels_and_buttons_witness :
  In "experience" tab_names
  /\ tab_display (switchTab "experience" sample_tabs) !! "experience-tab"
     = Some ""
  /\ tab_display (switchTab "experience" sample_tabs) !! "basic-tab"
     = Some "none".
Proof.
  assert (He : In "experience" tab_names) by (right; left; reflexivity).
  assert (Hb : In "basic" tab_names) by (left; reflexivity).
  split; [exact He|].
  destruct (switchTab_panels_and_buttons "experience" sample_tabs "experience" He)
    as [H1 _].
  destruct (switchTab_named "experience" sample_tabs "basic" Hb) as [H2 _].
  split; (etransitivity; [first [exact H1 | exact H2] | reflexivity]).
Defined.

(** X16. A [data-tab] that is none of the three names is passed to
    [switchTab] as it is, and then every panel the page has is hidden and
    the first button of each of the three names is inactive. *)
Theorem switchTab_unknown_hides_all (tab : string) (ui : Tabs) (t : string) :
  ~ In tab tab_names -> In t tab_names ->
  tab_display (switchTab tab ui) !! content_id t
  = (fun _ => "none") <$> tab_display ui !! content_id t
  /\ query_tab t (tab_buttons (switchTab tab ui))
     = set_active false <$> query_tab t (tab_buttons ui).
Proof.
  intros Hno Ht.
  assert (E : String.eqb t tab = false).
  { apply String.eqb_neq. intros ->. contradiction. }
  destruct (switchTab_named tab ui t Ht) as [Hd Hq].
  rewrite Hd, Hq, E. split; reflexivity.
Qed.

Lemma switchTab_unknown_hides_all_witness :
  ~ In "settings" tab_names
  /\ In "basic" tab_names
  /\ tab_display (switchTab "settings" sample_tabs) !! "basic-tab" = Some "none".
Proof.
  assert (Hno : ~ In "settings" tab_names).
  { intros H. apply in_tab_names in H.
    destruct H as [H | [H | H]]; discriminate H. }
  assert (Hb : In "basic" tab_names) by (left; reflexivity).
  split; [exact Hno|]. split; [exact Hb|].
  destruct (switchTab_unknown_hides_all "settings" sample_tabs "basic" Hno Hb)
    as [H _].
  etransitivity; [exact H | reflexivity].
Defined.

(** X17. Only the last [switchTab] counts: switching to [a] and then to
    [b] gives the page that switching to [b] gives; in particular
    switching twice to the same tab is switching once. *)
Theorem switchTab_last_wins (a b : string) (ui : Tabs) :
  switchTab b (switchTab a ui) = switchTab b ui.
Proof.
  assert (Hd : tab_display (switchTab b (switchTab a ui))
               = tab_display (switchTab b ui)).
  { apply map_eq. intros id. rewrite !switchTab_display.
    repeat match goal with
    | |- context [if String.eqb id ?x then _ else _] =>
        destruct (String.eqb id x)
    end; try reflexivity;
    destruct (tab_display ui !! id); reflexivity. }
  assert (Hb : tab_buttons (switchTab b (switchTab a ui))
               = tab_buttons (switchTab b ui)).
  { rewrite !switchTab_buttons.
    set (l := tab_buttons ui).
    rewrite (toggle_active_comm "basic" "preferences") by discriminate.
    rewrite (toggle_active_comm "basic" "experience") by discriminate.
    rewrite toggle_active_again.
    rewrite (toggle_active_comm "experience" "preferences") by discriminate.
    rewrite toggle_active_again.
    rewrite toggle_active_again.
    reflexivity. }
  destruct (switchTab b (switchTab a ui)), (switchTab b ui).
  simpl in *. congruence.
Qed.

(** X18. A tab button without a [data-tab] (absent or empty) is resolved
    from its text to basic, experience or preferences, in that order of
    preference, and the click that switches to that tab leaves the button
    itself as it was: it is never made active. *)
Theorem text_only_tab_never_highlighted (toLowerCase : string -> string)
    (i : nat) (ui : Tabs) (b : TabButton) :
  tab_buttons ui !! i = Some b ->
  opt_or (data_tab b) "" = "" ->
  tab_of_button toLowerCase b
  = (if includes "basic" (toLowerCase (tab_text b)) then "basic"
     else if includes "experience" (toLowerCase (tab_text b)) then "experience"
     else "preferences")
  /\ In (tab_of_button toLowerCase b) tab_names
  /\ tab_buttons (click_tab toLowerCase i ui) !! i = Some b.
Proof.
  intros Hi Hdata.
  assert (Hno : forall t, In t tab_names -> has_data_tab t b = false).
  { intros t Ht. unfold has_data_tab. destruct (data_tab b) as [x|]; [|reflexivity].
    simpl in Hdata. unfold or_else in Hdata. destruct x; [|discriminate].
    apply in_tab_names in Ht. destruct Ht as [-> | [-> | ->]]; reflexivity. }
  assert (Htab : tab_of_button toLowerCase b
    = (if includes "basic" (toLowerCase (tab_text b)) then "basic"
       else if includes "experience" (toLowerCase (tab_text b)) then "experience"
       else "preferences")).
  { unfold tab_of_button. destruct (data_tab b) as [x|]; [|reflexivity].
    simpl in Hdata. unfold or_else in Hdata.
    destruct x; [reflexivity | discriminate]. }
  split; [exact Htab|]. split.
  - rewrite Htab. apply in_tab_names.
    destruct (includes "basic" _); [auto|].
    destruct (includes "experience" _); auto.
  - unfold click_tab. rewrite Hi. rewrite switchTab_buttons.
    repeat apply toggle_keeps_unnamed; try assumption;
      apply Hno; apply in_tab_names; auto.
Qed.

Lemma text_only_tab_never_highlighted_witness :
  tab_buttons sample_tabs !! 1%nat = Some (mkTabButton None "Work EXPERIENCE" false)
  /\ tab_buttons (click_tab lower 1 sample_tabs) !! 1%nat
     = Some (mkTabButton None "Work EXPERIENCE" false)
  /\ tab_display (click_tab lower 1 sample_tabs) !! "experience-tab" = Some "".
Proof.
  split; [reflexivity|].
  destruct (text_only_tab_never_highlighted lower 1 sample_tabs
              (mkTabButton None "Work EXPERIENCE" false) eq_refl eq_refl)
    as (_ & _ & H).
  split; [exact H | reflexivity].
Defined.

(** *** Document types *)


(** *** The progress animation *)

Lemma tick_running (d : Dom) (p : Z) :
  p + 10 < 100 ->
  tick (animated d p "Generating your documents...", mkAnimation p true)
  = (animated d (p + 10) "Generating your documents...",
     mkAnimation (p + 10) true).
Proof.
  intros Hp. unfold tick, animated. cbn [running progress].
  destruct (Z.leb_spec 100 (p + 10)) as [H|H]; [lia|]. reflexivity.
Qed.

Lemma tick_last (d : Dom) (p : Z) :
  100 <= p + 10 ->
  tick (animated d p "Generating your documents...", mkAnimation p true)
  = (animated d (p + 10) "Done!", mkAnimation (p + 10) false).
Proof.
  intros Hp. unfold tick, animated. cbn [running progress].
  destruct (Z.leb_spec 100 (p + 10)) as [H|H]; [|lia]. reflexivity.
Qed.

Lemma ticks_stopped (k : nat) (d : Dom) (p : Z) :
  ticks k (d, mkAnimation p false) = (d, mkAnimation p false).
Proof.
  induction k as [|k IH]; [reflexivity|].
  unfold ticks in *. simpl. now rewrite IH.
Qed.

Lemma ticks_add (j k : nat) (x : Dom * Animation) :
  ticks (j + k) x = ticks j (ticks k x).
Proof. unfold ticks. apply Nat.iter_add. Qed.

Lemma ticks_running (d : Dom) (k : nat) :
  (k < 10)%nat ->
  ticks k (animated d 0 "Generating your documents...", mkAnimation 0 true)
  = (animated d (10 * Z.of_nat k) "Generating your documents...",
     mkAnimation (10 * Z.of_nat k) true).
Proof.
  induction k as [|k IH]; intros Hk; [reflexivity|].
  unfold ticks in *. rewrite Nat.iter_succ. rewrite IH by lia.
  rewrite tick_running by lia.
  replace (10 * Z.of_nat k + 10) with (10 * Z.of_nat (S k)) by lia.
  reflexivity.
Qed.

Lemma ticks_done (d : Dom) (k : nat) :
  (10 <= k)%nat ->
  ticks k (animated d 0 "Generating your documents...", mkAnimation 0 true)
  = (animated d 100 "Done!", mkAnimation 100 false).
Proof.
  intros Hk. replace k with ((k - 10) + 1 + 9)%nat by lia.
  rewrite !ticks_add. rewrite ticks_running by lia.
  change (ticks 1 ?x) with (tick x).
  rewrite tick_last by lia.
  apply ticks_stopped.
Qed.

(** X20. On a page with the three progress elements the animation shows
    the bar at 0% and, after [k] firings of its interval, at [10 k]
    percent while [k < 10]; at the tenth firing the bar is at 100%, the
    text is "Done!" and the interval is cleared, so the bar stays
    there. *)
Theorem animation_reaches_done (d : Dom) (k : nat) :
  progress_present d = true ->
  exists d0 d',
    start_animation d = (d0, Some (mkAnimation 0 true))
    /\ ticks k (d0, mkAnimation 0 true)
       = (d', mkAnimation (10 * Z.of_nat (Nat.min k 10)) (k <? 10)%nat)
    /\ progress_container d' = Some "block"
    /\ progress_fill d'
       = Some (to_string (Num (10 * Z.of_nat (Nat.min k 10))) +:+ "%")
    /\ progress_text d'
       = Some (if (k <? 10)%nat then "Generating your documents..."
               else "Done!").
Proof.
  intros Hp. unfold start_animation. rewrite Hp.
  exists (animated d 0 "Generating your documents...").
  destruct (Nat.ltb_spec k 10) as [Hk|Hk].
  - exists (animated d (10 * Z.of_nat k) "Generating your documents...").
    replace (Nat.min k 10) with k by lia.
    split; [reflexivity|]. split; [now apply ticks_running|].
    repeat split; reflexivity.
  - exists (animated d 100 "Done!").
    replace (Nat.min k 10) with 10%nat by lia.
    split; [reflexivity|]. split; [now apply ticks_done|].
    repeat split; reflexivity.
Qed.

Lemma animation_reaches_done_witness :
  progress_present (dom state_free_1) = true
  /\ exists d0 d',
       start_animation (dom state_free_1) = (d0, Some (mkAnimation 0 true))
       /\ fst (ticks 3 (d0, mkAnimation 0 true)) = d'
       /\ progress_fill d' = Some "30%".
Proof.
  split; [reflexivity|].
  destruct (animation_reaches_done (dom state_free_1) 3 eq_refl)
    as (d0 & d' & H0 & Ht & _ & Hf & _).
  exists d0, d'. split; [exact H0|]. split; [now rewrite Ht | exact Hf].
Defined.

(** X21. The animation does not know how the submission went: when the
    gate or validation refuses a submission on a page with the three
    progress elements, no request is sent, and yet once the handler has
    returned the animation shows the bar and takes it to 100% and
    "Done!", beside the toast of the refusal. *)
Theorem refused_submission_still_animates (net : Network) (s : State) (k : nat) :
  progress_present (dom s) = true ->
  exit_of (run net s) = Val ExitCreditGate
  \/ exit_of (run net s) = Val ExitValidation ->
  (10 <= k)%nat ->
  exists d0 d',
    start_animation (dom (state_of (run net s)))
    = (d0, Some (mkAnimation 0 true))
    /\ ticks k (d0, mkAnimation 0 true) = (d', mkAnimation 100 false)
    /\ progress_container d' = Some "block"
    /\ progress_fill d' = Some "100%"
    /\ progress_text d' = Some "Done!"
    /\ qh_toast d' = Some (mkToast (refusal_message s) "#ef4444")
    /\ requests (trace_of (run net s)) = [].
Proof.
  intros Hp Hexit Hk.
  destruct (refusal_state net s Hexit) as [Hs Ht].
  rewrite Hs, Ht. cbn [dom].
  set (d1 := set_button _ _).
  assert (Hp1 : progress_present d1 = true) by exact Hp.
  exists (animated d1 0 "Generating your documents...").
  exists (animated d1 100 "Done!").
  split.
  - unfold start_animation. rewrite Hp1. reflexivity.
  - split; [now apply ticks_done|]. repeat split; reflexivity.
Qed.

Lemma refused_submission_still_animates_witness :
  progress_present (dom state_no_industry_0) = true
  /\ exit_of (run server_ok state_no_industry_0) = Val ExitCreditGate
  /\ (10 <= 10)%nat
  /\ exists d0 d',
       start_animation (dom (state_of (run server_ok state_no_industry_0)))
       = (d0, Some (mkAnimation 0 true))
       /\ ticks 10 (d0, mkAnimation 0 true) = (d', mkAnimation 100 false)
       /\ progress_text d' = Some "Done!".
Proof.
  split; [reflexivity|]. split; [reflexivity|]. split; [lia|].
  destruct (refused_submission_still_animates server_ok state_no_industry_0 10
              eq_refl (or_introl eq_refl) (le_n 10))
    as (d0 & d' & H0 & Ht & _ & _ & Hx & _).
  exists d0, d'. split; [exact H0|]. split; [exact Ht | exact Hx].
Defined.

(** *** Skill tags *)

Lemma plain_app (a b : string) : plain (a +:+ b) = plain a && plain b.
Proof.
  induction a as [|c a IH]; [reflexivity|].
  rewrite append_cons. simpl. rewrite IH. now rewrite andb_assoc.
Qed.

Lemma plain_trim (s : string) : plain s = true -> plain (trim s) = true.
Proof.
  intros H. unfold trim.
  destruct (trimStart_suffix s) as [u Hu].
  destruct (trimEnd_split (trimStart s)) as (w & Hw & _).
  rewrite Hu, Hw, !plain_app in H.
  apply andb_prop in H as [_ H]. now apply andb_prop in H as [H _].
Qed.

Lemma tidy_delete (i : nat) (labels : list string) :
  tidy labels -> tidy (delete i labels).
Proof.
  intros [Hn Hf]. split.
  - eapply sublist_NoDup; [exact Hn | apply sublist_delete].
  - now apply Forall_delete.
Qed.

Lemma tidy_snoc (labels : list string) (v : string) :
  tidy labels ->
  existsb (fun l => String.eqb (trim l) v) labels = false ->
  trim v = v -> v <> "" ->
  tidy (labels ++ [v]).
Proof.
  intros [Hn Hf] Hex Hv Hne. split.
  - apply NoDup_app. split; [exact Hn|]. split; [|apply NoDup_singleton].
    intros x Hx Hx'. apply list_elem_of_singleton in Hx'. subst x.
    rewrite Forall_forall in Hf. destruct (Hf v Hx) as [Ht _].
    assert (Hin : In v labels) by now apply list_elem_of_In.
    assert (existsb (fun l => String.eqb (trim l) v) labels = true).
    { apply existsb_exists. exists v. split; [exact Hin|].
      rewrite Ht. apply String.eqb_refl. }
    congruence.
  - apply Forall_app. split; [exact Hf|]. repeat constructor; assumption.
Qed.

Lemma skills_step_tidy (tag_label : string -> option string)
    (ui : SkillsUi) (ev : SkillsEvent) :
  (forall v, plain v = true -> tag_label v = Some v) ->
  plain (skills_value ui) = true -> tidy (labels_of ui) -> typed_plain ev ->
  plain (skills_value (skills_step tag_label ui ev)) = true
  /\ tidy (labels_of (skills_step tag_label ui ev)).
Proof.
  intros tag_label_plain Hp Ht Hev. destruct ev as [text|key|i]; simpl.
  - split; [exact Hev | exact Ht].
  - unfold addSkill.
    destruct (String.eqb key "Enter" && truthy (trim (skills_value ui))) eqn:E;
      [|split; assumption].
    apply andb_prop in E as [_ Etruthy].
    destruct ui as [value [labels|]]; simpl in *; [|split; assumption].
    destruct (existsb _ labels) eqn:Ex; [split; assumption|].
    rewrite (tag_label_plain (trim value)) by now apply plain_trim.
    simpl. split; [reflexivity|].
    apply tidy_snoc; try assumption.
    + apply trim_idem.
    + intros H0. rewrite H0 in Etruthy. discriminate Etruthy.
  - split; [exact Hp|]. unfold labels_of, removeSkill in *. simpl.
    destruct (skill_labels ui) as [labels|]; simpl; [|exact Ht].
    now apply tidy_delete.
Qed.

(** X22. Skill tags stay distinct. Let the markup of line 214 give back
    its text for text without markup characters, let the typed texts be
    such text, and start with labels that are distinct, trimmed and not
    empty (no tag at all, for one). Then after any typing, key presses
    and removals the labels are still distinct, trimmed and not empty,
    and the skills the handler collects from these tags are the labels
    themselves, without a duplicate. *)
Theorem skills_stay_distinct (tag_label : string -> option string)
    (ui : SkillsUi) (evs : list SkillsEvent) :
  (forall v, plain v = true -> tag_label v = Some v) ->
  plain (skills_value ui) = true ->
  tidy (labels_of ui) ->
  Forall typed_plain evs ->
  tidy (labels_of (fold_left (skills_step tag_label) evs ui))
  /\ forall d,
       skill_tags d = labels_of (fold_left (skills_step tag_label) evs ui) ->
       NoDup (skills (formData d))
       /\ skills (formData d) = skill_tags d.
Proof.
  intros Hlabel Hp Ht Hevs.
  assert (H : plain (skills_value (fold_left (skills_step tag_label) evs ui)) = true
              /\ tidy (labels_of (fold_left (skills_step tag_label) evs ui))).
  { revert ui Hp Ht. induction Hevs as [|ev evs Hev Hevs IH]; intros ui Hp Ht.
    - split; assumption.
    - simpl. destruct (skills_step_tidy tag_label ui ev Hlabel Hp Ht Hev).
      now apply IH. }
  destruct H as [_ Htidy]. split; [exact Htidy|].
  intros d Hd. destruct Htidy as [Hn Hf]. rewrite <- Hd in Hn, Hf.
  assert (Hmap : map trim (skill_tags d) = skill_tags d).
  { clear Hn Hd. induction Hf as [|l ls [Hl _] _ IH]; [reflexivity|].
    simpl. now rewrite Hl, IH. }
  unfold formData. simpl. rewrite Hmap. split; [exact Hn | reflexivity].
Qed.

Lemma skills_stay_distinct_witness :
  plain (skills_value (mkSkillsUi "" (Some []))) = true
  /\ tidy (labels_of (mkSkillsUi "" (Some [])))
  /\ Forall typed_plain sample_skill_events
  /\ labels_of (fold_left (skills_step Some) sample_skill_events
                  (mkSkillsUi "" (Some [])))
     = ["SQL"]
  /\ tidy (labels_of (fold_left (skills_step Some) sample_skill_events
                        (mkSkillsUi "" (Some [])))).
Proof.
  assert (H1 : forall v, plain v = true -> Some v = Some v) by reflexivity.
  assert (H3 : tidy (labels_of (mkSkillsUi "" (Some [])))).
  { split; constructor. }
  assert (H4 : Forall typed_plain sample_skill_events).
  { repeat constructor. }
  split; [reflexivity|]. split; [exact H3|].
  split; [exact H4|]. split; [reflexivity|].
  destruct (skills_stay_distinct Some (mkSkillsUi "" (Some []))
              sample_skill_events H1 eq_refl H3 H4) as [H _].
  exact H.
Defined.
